(** * robotica: reading a calendar

    A shallow embedding of [read_calendar], the Python helper of
    robotica-tokio and robotica-backend that parses an iCalendar document,
    expands its events over a window of dates and turns every occurrence
    into a plain dictionary.

    The file has four parts: the Python values the function touches
    (dates, date-times, the wrappers of [icalendar.prop], exceptions), the
    two source files translated one by one, the collaborators that live
    outside the repository, and the theorems. *)

From Stdlib Require Import ZArith Lia.
From Stdlib.Strings Require Import Byte.
From stdpp Require Import base option list gmap strings fin_maps sorting.

Local Open Scope Z_scope.

(** ** The [datetime] module *)

Module Py.

(** A [date] is carried by its proleptic Gregorian ordinal
    ([date.toordinal()], day 1 is 0001-01-01). *)
Record date : Type := mkdate { toordinal : Z }.

(** A [tzinfo] answers [utcoffset(dt)] from the wall clock of [dt]; the
    offset is in microseconds, the resolution of [timedelta]. *)
Record tzinfo : Type := mktz { tzname : string; utcoffset : Z → Z }.

(** A [datetime]: its wall clock in microseconds since the midnight that
    starts ordinal 0, and its [tzinfo] attribute ([None] when naive). *)
Record datetime : Type := mkdatetime { wall : Z; tzinfo_of : option tzinfo }.

Record timedelta : Type := mktimedelta { total_us : Z }.

Definition DAY : Z := 86400 * 1000000.
Definition MINORDINAL : Z := 1.
Definition MAXORDINAL : Z := 3652059.

Definition is_leap (year : Z) : bool :=
  (year mod 4 =? 0) && (negb (year mod 100 =? 0) || (year mod 400 =? 0)).

Definition days_before_year (year : Z) : Z :=
  let y := year - 1 in y * 365 + y / 4 - y / 100 + y / 400.

Definition DAYS_BEFORE_MONTH : list Z :=
  [0; 31; 59; 90; 120; 151; 181; 212; 243; 273; 304; 334].

Definition days_before_month (year month : Z) : Z :=
  nth (Z.to_nat (month - 1)) DAYS_BEFORE_MONTH 0
  + (if (2 <? month) && is_leap year then 1 else 0).

Definition ymd2ord (year month day : Z) : Z :=
  days_before_year year + days_before_month year month + day.

(** [date(year, month, day)] *)
Definition date_of (year month day : Z) : date :=
  mkdate (ymd2ord year month day).

(** [datetime(year, month, day, hour, minute, second, tzinfo=tz)] *)
Definition datetime_of (year month day hour minute second : Z)
    (tz : option tzinfo) : datetime :=
  mkdatetime (ymd2ord year month day * DAY
              + ((hour * 60 + minute) * 60 + second) * 1000000) tz.

(** [timezone.utc] and [timezone(timedelta(hours=h))] *)
Definition timezone_utc : tzinfo := mktz "UTC" (λ _, 0).
Definition timezone_hours (name : string) (h : Z) : tzinfo :=
  mktz name (λ _, h * 3600 * 1000000).

(** A wall clock is representable when its day lies between [date.min] and
    [date.max]. *)
Definition representable (w : Z) : bool :=
  (MINORDINAL * DAY <=? w) && (w <? (MAXORDINAL + 1) * DAY).

(** ** Python objects

    The values [read_calendar] can find under a key of an event, and the
    ones it stores.  [icalendar] hands out instances of its own classes:
    [vDDDTypes] wraps a [datetime], [date], [timedelta], [time] or a period
    tuple in its [dt] attribute; [vText] is a subclass of [str]; [vInt] and
    [vBoolean] are subclasses of [int]; the remaining [str] subclasses
    ([vUri], [vCalAddress], ...) behave as [str] here.  A property given
    several times comes back as a Python [list]; [vRecur], [vDDDLists],
    [vBinary], [vGeo], [float] and the like are instances of other
    classes. *)
#[warnings="-register-all"] Inductive pyobj : Type :=
  | Datetime (d : datetime)
  | Date (d : date)
  | Timedelta (t : timedelta)
  | Time (us : Z)
  | PyTuple (items : list pyobj)
  | PyInt (n : Z)
  | PyStr (s : string)
  | vText (s : string)
  | vDDDTypes (dt : pyobj)
  | PyList (items : list pyobj)
  | PyObject (cls : string).

(** The classes [read_calendar] tests against. *)
Inductive pyclass : Type :=
  | datetime_t | date_t | timedelta_t | vDDDTypes_t | vText_t | int_t | str_t.

(** [isinstance(o, c)]: true for instances of [c] and of its subclasses,
    so a [datetime] is also a [date] and a [vText] is also a [str]. *)
Definition isinstance (o : pyobj) (c : pyclass) : bool :=
  match c, o with
  | datetime_t, Datetime _ => true
  | date_t, (Date _ | Datetime _) => true
  | timedelta_t, Timedelta _ => true
  | vDDDTypes_t, vDDDTypes _ => true
  | vText_t, vText _ => true
  | int_t, PyInt _ => true
  | str_t, (PyStr _ | vText _) => true
  | _, _ => false
  end.

(** ** Exceptions *)

(** An f-string: literal text and interpolated objects, in order. *)
Inductive fragment : Type :=
  | Lit (s : string)
  | Fmt (o : pyobj).

(** [RuntimeError] is the one exception [read_calendar] raises itself.
    [KeyError], [AttributeError], [OverflowError] and [ValueError] come
    from the interpreter; the last three are the failures of the
    collaborators, under the names section 7 of the specification gives
    them. *)
Inductive exn : Type :=
  | RuntimeError (msg : list fragment)
  | KeyError (key : string)
  | AttributeError (name : string)
  | OverflowError
  | ValueError
  | FetchError
  | ParseError
  | InvalidWindowError.

(** A Python computation either returns or raises. *)
Inductive py (A : Type) : Type :=
  | Return (a : A)
  | Raise (e : exn).
Arguments Return {A} a.
Arguments Raise {A} e.

#[global] Instance py_ret : MRet py := λ A a, Return a.
#[global] Instance py_bind : MBind py := λ A B f m,
  match m with Return a => f a | Raise e => Raise e end.
#[global] Instance py_fmap : FMap py := λ A B f m,
  match m with Return a => Return (f a) | Raise e => Raise e end.

(** ** Attribute access and method calls *)

(** [o.dt] *)
Definition getattr_dt (o : pyobj) : py pyobj :=
  match o with
  | vDDDTypes dt => Return dt
  | _ => Raise (AttributeError "dt")
  end.

(** *** The zone of the machine

    CPython (3.11, [_datetimemodule.c]) finds the zone of a naive
    [datetime] through the [localtime] of the C library.  The machine is
    described by a [tzinfo] record read on the UTC clock: [gmtoff local u]
    is the offset, in seconds, in force when the UTC clock reads [u]
    seconds. *)
Definition SECOND : Z := 1000000.

Definition gmtoff (local : tzinfo) (u : Z) : Z :=
  utcoffset local (u * SECOND) / SECOND.

(** [local(u)]: the reading of the clock of the machine when the UTC clock
    reads [u], in seconds; [utc_to_seconds] refuses a reading whose year is
    not between 1 and 9999. *)
Definition local_reading (local : tzinfo) (u : Z) : py Z :=
  let lt := u + gmtoff local u in
  if representable (lt * SECOND) then Return lt else Raise ValueError.

Definition max_fold_seconds : Z := 24 * 3600.

(** [local_to_seconds(..., fold=0)]: the UTC reading at which the clock of
    the machine reads [t]; a date-time read from a calendar has [fold] 0.
    It tries the offset in force at [t], looks one day back for an earlier
    solution, and falls back on the later of its two candidates when [t]
    is in a gap.  The [localtime] of the platform is taken to answer every
    reading asked of it, as on 64-bit Linux. *)
Definition local_to_seconds (local : tzinfo) (t : Z) : py Z :=
  lt ← local_reading local t;
  let a := lt - t in
  let u1 := t - a in
  t1 ← local_reading local u1;
  let finish (b : Z) : py Z :=
    let u2 := t - b in
    t2 ← local_reading local u2;
    if t2 =? t then Return u2
    else if t1 =? t then Return u1
    else Return (Z.max u1 u2) in
  if t1 =? t then
    let u2 := u1 - max_fold_seconds in
    lt2 ← local_reading local u2;
    let b := lt2 - u2 in
    if a =? b then Return u1 else finish b
  else finish (t1 - u1).

(** [local_timezone_from_local(d).utcoffset(d)]: the offset, in
    microseconds, of the fixed zone CPython attaches to a naive [d]. *)
Definition local_utcoffset (local : tzinfo) (d : datetime) : py Z :=
  ts ← local_to_seconds local (wall d / SECOND);
  Return (gmtoff local ts * SECOND).

(** [d.astimezone(timezone.utc)].  The offset is that of the zone of [d] at
    its wall clock, or for a naive [d] the one found on the machine, which
    can raise [ValueError]; it is taken off the wall clock, which raises
    [OverflowError] when the result leaves the range of [datetime]; the
    result carries [timezone.utc]. *)
Definition datetime_astimezone_utc (local : tzinfo) (d : datetime) : py datetime :=
  offset ← match tzinfo_of d with
           | Some z => Return (utcoffset z (wall d))
           | None => local_utcoffset local d
           end;
  let utc := wall d - offset in
  if representable utc then Return (mkdatetime utc (Some timezone_utc))
  else Raise OverflowError.

(** The absolute instant a [datetime] denotes, in microseconds on the UTC
    scale: its wall clock less the offset of its zone; for a naive one, the
    offset the machine has when the UTC clock shows that wall clock. *)
Definition utc_instant (local : tzinfo) (d : datetime) : Z :=
  wall d - utcoffset (default local (tzinfo_of d)) (wall d).

(** [o.astimezone(timezone.utc)] on an arbitrary object *)
Definition astimezone_utc (local : tzinfo) (o : pyobj) : py pyobj :=
  match o with
  | Datetime d => Datetime <$> datetime_astimezone_utc local d
  | _ => Raise (AttributeError "astimezone")
  end.

(** ** Events

    An [icalendar] event is a dictionary from property names to values;
    [keys()] lists the names in the order of the document. *)
Definition event : Type := list (string * pyobj).

Definition keys (e : event) : list string := e.*1.

(** [e[i]] *)
Fixpoint getitem (e : event) (i : string) : py pyobj :=
  match e with
  | [] => Raise (KeyError i)
  | (k, v) :: e' => if decide (k = i) then Return v else getitem e' i
  end.

(** The raw text of a calendar. *)
Definition bytes : Type := list Byte.byte.

End Py.
Export Py.

(** ** robotica-tokio/python/robotica.py *)

Module Tokio.
Section Source.

(** The zone of the machine, which [astimezone] applies to a naive
    [datetime]. *)
Variable local_timezone : tzinfo.

(** [icalendar.Calendar.from_ical] and
    [recurring_ical_events.of(calendar).between]: third-party code, taken
    as it comes. *)
Variable Calendar : Type.
Variable from_ical : bytes → py Calendar.
Variable between : Calendar → date → date → py (list event).

(** Lines 16-33: the object stored under [i], or the exception raised. *)
Definition convert (i : string) (v : pyobj) : py pyobj :=
  if isinstance v vDDDTypes_t then
    dt ← getattr_dt v;
    if isinstance dt datetime_t then astimezone_utc local_timezone dt
    else if isinstance dt date_t then mret dt
    else if isinstance dt timedelta_t then mret dt
    else Raise (RuntimeError
                  [Lit "Unknown type for "; Fmt dt; Lit " key "; Fmt (PyStr i)])
  else if isinstance v vText_t then mret v
  else if isinstance v int_t then mret v
  else if isinstance v str_t then mret v
  else Raise (RuntimeError [Lit "Unknown type for "; Fmt (PyStr i)]).

(** Lines 15-33: [for i in event.keys()], threading [json_data]. *)
Fixpoint for_keys (ev : event) (ks : list string)
    (json_data : gmap string pyobj) : py (gmap string pyobj) :=
  match ks with
  | [] => mret json_data
  | i :: ks' =>
      v ← getitem ev i;
      w ← convert i v;
      for_keys ev ks' (<[i := w]> json_data)
  end.

(** Lines 14-35: one pass of the outer loop builds one [json_data]. *)
Definition record_of (ev : event) : py (gmap string pyobj) :=
  for_keys ev (keys ev) ∅.

(** Lines 13-35: [for event in events], threading [result]. *)
Fixpoint for_events (events : list event)
    (result : list (gmap string pyobj)) : py (list (gmap string pyobj)) :=
  match events with
  | [] => mret result
  | ev :: events' =>
      json_data ← record_of ev;
      for_events events' (result ++ [json_data])
  end.

(** Lines 9-36. *)
Definition read_calendar (ical_string : bytes)
    (start_date end_date : date) : py (list (gmap string pyobj)) :=
  calendar ← from_ical ical_string;
  events ← between calendar start_date end_date;
  for_events events [].

End Source.

Section Script.

Variable local_timezone : tzinfo.
Variable Calendar : Type.
Variable urlopen_read : string → py bytes.
Variable from_ical : bytes → py Calendar.
Variable between : Calendar → date → date → py (list event).

(** Lines 39-41, the script run as a program: the list it prints, or the
    exception that ends it. *)
Definition main : py (list (gmap string pyobj)) :=
  ical_string ← urlopen_read "http://tinyurl.com/y24m3r8f";
  read_calendar local_timezone Calendar from_ical between ical_string
    (date_of 2019 3 5) (date_of 2019 4 1).

End Script.
End Tokio.

(** ** robotica-backend/python/robotica.py

    The same function behind a fetch: the first argument is a URL, and the
    text of the calendar is what [urllib.request.urlopen(url).read()]
    returns. *)

Module Backend.
Section Source.

Variable local_timezone : tzinfo.
Variable Calendar : Type.
Variable urlopen_read : string → py bytes.
Variable from_ical : bytes → py Calendar.
Variable between : Calendar → date → date → py (list event).

(** Lines 16-33. *)
Definition convert (i : string) (v : pyobj) : py pyobj :=
  if isinstance v vDDDTypes_t then
    dt ← getattr_dt v;
    if isinstance dt datetime_t then astimezone_utc local_timezone dt
    else if isinstance dt date_t then mret dt
    else if isinstance dt timedelta_t then mret dt
    else Raise (RuntimeError
                  [Lit "Unknown type for "; Fmt dt; Lit " key "; Fmt (PyStr i)])
  else if isinstance v vText_t then mret v
  else if isinstance v int_t then mret v
  else if isinstance v str_t then mret v
  else Raise (RuntimeError [Lit "Unknown type for "; Fmt (PyStr i)]).

(** Lines 15-33. *)
Fixpoint for_keys (ev : event) (ks : list string)
    (json_data : gmap string pyobj) : py (gmap string pyobj) :=
  match ks with
  | [] => mret json_data
  | i :: ks' =>
      v ← getitem ev i;
      w ← convert i v;
      for_keys ev ks' (<[i := w]> json_data)
  end.

(** Lines 14-35. *)
Definition record_of (ev : event) : py (gmap string pyobj) :=
  for_keys ev (keys ev) ∅.

(** Lines 13-35. *)
Fixpoint for_events (events : list event)
    (result : list (gmap string pyobj)) : py (list (gmap string pyobj)) :=
  match events with
  | [] => mret result
  | ev :: events' =>
      json_data ← record_of ev;
      for_events events' (result ++ [json_data])
  end.

(** Lines 8-36. *)
Definition read_calendar (url : string)
    (start_date end_date : date) : py (list (gmap string pyobj)) :=
  ical_string ← urlopen_read url;
  calendar ← from_ical ical_string;
  events ← between calendar start_date end_date;
  for_events events [].

End Source.

Section Script.

Variable local_timezone : tzinfo.
Variable Calendar : Type.
Variable urlopen_read : string → py bytes.
Variable from_ical : bytes → py Calendar.
Variable between : Calendar → date → date → py (list event).

(** Lines 39-42, the script run as a program: the list it prints, or the
    exception that ends it. *)
Definition main : py (list (gmap string pyobj)) :=
  read_calendar local_timezone Calendar urlopen_read from_ical between
    "http://tinyurl.com/y24m3r8f" (date_of 2019 3 5) (date_of 2019 4 1).

End Script.
End Backend.

(** ** The collaborators

    Parsing and recurrence expansion are done by [icalendar] and
    [recurring_ical_events].  Neither is part of the repository; what
    follows is what the specification says of them. *)

Module Expander.

(** Modelled from the spec: the start of an occurrence, section 3, which
    the source leaves to recurring_ical_events: a pure calendar date for an
    all-day event, a date-time otherwise. *)
Inductive moment : Type :=
  | OnDate (d : date)
  | AtTime (t : datetime).

(** Modelled from the spec: the RecurrenceRule of section 3, which the
    source leaves to recurring_ical_events: opaque but for the ordered
    sequence of start instants it generates for a bounding window. *)
Record RecurrenceRule : Type := mkrule { generate : date → date → list moment }.

(** Modelled from the spec: the EventComponent of section 3, which the
    source leaves to icalendar: the mapping from property names to values,
    and, decoded, the properties that steer the expansion (UID, RRULE,
    RDATE, EXDATE, RECURRENCE-ID). *)
Record EventComponent : Type := mkcomponent {
  properties : event;
  uid : string;
  rrule : option RecurrenceRule;
  rdate : list moment;
  exdate : list moment;
  recurrence_id : option moment
}.

(** Modelled from the spec: the CalendarDocument of section 3, which the
    source leaves to icalendar: the event components in document order. *)
Definition CalendarDocument : Type := list EventComponent.

(** Modelled from the spec: the three kinds of component of step 1 of
    section 4.2, which the source leaves to recurring_ical_events. *)
Inductive role : Type := NonRecurring | Master | Override.

(** Modelled from the spec: a start as the value of a DTSTART or DTEND
    property, which the source leaves to icalendar. *)
Definition value_of (m : moment) : pyobj :=
  match m with
  | OnDate d => vDDDTypes (Date d)
  | AtTime t => vDDDTypes (Datetime t)
  end.

(** Modelled from the spec: the start a property value stands for, which
    the source leaves to recurring_ical_events. *)
Definition moment_of (v : pyobj) : option moment :=
  match v with
  | vDDDTypes (Date d) => Some (OnDate d)
  | vDDDTypes (Datetime t) => Some (AtTime t)
  | _ => None
  end.

(** Modelled from the spec: reading a property of a component, [e.get(k)],
    which the source leaves to recurring_ical_events. *)
Definition get (e : event) (k : string) : option pyobj :=
  match getitem e k with Return v => Some v | Raise _ => None end.

(** Modelled from the spec: writing a property of an occurrence,
    [e[k] = v], which the source leaves to recurring_ical_events: in place
    when the key is there, at the end otherwise. *)
Fixpoint setitem (e : event) (k : string) (v : pyobj) : event :=
  match e with
  | [] => [(k, v)]
  | (k', v') :: e' =>
      if decide (k' = k) then (k', v) :: e' else (k', v') :: setitem e' k v
  end.

(** Modelled from the spec: the effective start of section 3, which the
    source leaves to recurring_ical_events. *)
Definition dtstart (e : event) : option moment := get e "DTSTART" ≫= moment_of.

(** Modelled from the spec: the end of section 3, which the source leaves
    to recurring_ical_events. *)
Definition dtend (e : event) : option moment := get e "DTEND" ≫= moment_of.

Section Expansion.

Variable local_timezone : tzinfo.

(** Modelled from the spec: the reference frame of steps 2 and 5 of
    section 4.2, which the source leaves to recurring_ical_events: the
    absolute instant of a start, in microseconds; a date stands for its
    midnight. *)
Definition instant (m : moment) : Z :=
  match m with
  | OnDate d => toordinal d * DAY
  | AtTime t => utc_instant local_timezone t
  end.

(** Modelled from the spec: the shift of step 3 of section 4.2, which the
    source leaves to recurring_ical_events: a start moved by [delta]
    microseconds, whole days for a date. *)
Definition shift (delta : Z) (m : moment) : moment :=
  match m with
  | OnDate d => OnDate (mkdate (toordinal d + delta / DAY))
  | AtTime t => AtTime (mkdatetime (wall t + delta) (tzinfo_of t))
  end.

(** Modelled from the spec: step 1 of section 4.2, which the source leaves
    to recurring_ical_events. *)
Definition role_of (c : EventComponent) : role :=
  match recurrence_id c, rrule c, rdate c with
  | Some _, _, _ => Override
  | None, None, [] => NonRecurring
  | None, _, _ => Master
  end.

(** Modelled from the spec: the union of step 2 of section 4.2, which the
    source leaves to recurring_ical_events: insertion into a chronological
    sequence without repeated instants. *)
Fixpoint insert_instant (m : moment) (l : list moment) : list moment :=
  match l with
  | [] => [m]
  | x :: l' =>
      if instant m <? instant x then m :: l
      else if instant m =? instant x then l
      else x :: insert_instant m l'
  end.

(** Modelled from the spec: the union of step 2 of section 4.2, which the
    source leaves to recurring_ical_events. *)
Definition union_instants (l : list moment) : list moment :=
  foldr insert_instant [] l.

(** Modelled from the spec: the EXDATE test of step 2 of section 4.2,
    which the source leaves to recurring_ical_events: by absolute
    instant. *)
Definition excluded (c : EventComponent) (m : moment) : bool :=
  existsb (λ x, instant x =? instant m) (exdate c).

(** Modelled from the spec: step 2 of section 4.2, which the source leaves
    to recurring_ical_events: the instants of RRULE and RDATE together, in
    order, less those an EXDATE names, compared by absolute instant. *)
Definition candidates (c : EventComponent) (ws we : date) : list moment :=
  filter (λ m, excluded c m = false)
    (union_instants
       (match rrule c with Some r => generate r ws we | None => [] end
        ++ rdate c)).

(** Modelled from the spec: the override test of step 3 of section 4.2,
    which the source leaves to recurring_ical_events: [o] has the UID of
    the master [c] and a RECURRENCE-ID at the instant of [m]. *)
Definition overrides (c : EventComponent) (m : moment) (o : EventComponent) : bool :=
  bool_decide (uid o = uid c)
  && match recurrence_id o with
     | Some r => instant r =? instant m
     | None => false
     end.

(** Modelled from the spec: the synthesis of step 3 of section 4.2, which
    the source leaves to recurring_ical_events: DTSTART moved to the
    candidate, DTEND moved by as much. *)
Definition synthesize (c : EventComponent) (m : moment) : event :=
  let e := setitem (properties c) "DTSTART" (value_of m) in
  match dtstart (properties c), dtend (properties c) with
  | Some s, Some e0 =>
      setitem e "DTEND" (value_of (shift (instant m - instant s) e0))
  | _, _ => e
  end.

(** Modelled from the spec: step 3 of section 4.2, which the source leaves
    to recurring_ical_events: the occurrence of a master at a candidate. *)
Definition occurrence_at (doc : CalendarDocument) (c : EventComponent)
    (m : moment) : event :=
  match List.find (overrides c m) doc with
  | Some o => properties o
  | None => synthesize c m
  end.

(** Modelled from the spec: steps 1, 3 and 4 of section 4.2, which the
    source leaves to recurring_ical_events: the occurrences of one
    component, each with the instant that generated it. *)
Definition occurrences (doc : CalendarDocument) (c : EventComponent)
    (ws we : date) : list (option moment * event) :=
  match role_of c with
  | NonRecurring => [(None, properties c)]
  | Master => (λ m, (Some m, occurrence_at doc c m)) <$> candidates c ws we
  | Override => []
  end.

(** Modelled from the spec: step 5 of section 4.2, which the source leaves
    to recurring_ical_events: the effective start lies in the half-open
    window, whose bounds are the midnights of the two dates on the scale of
    [instant]. *)
Definition in_window (ws we : date) (e : event) : bool :=
  match dtstart e with
  | Some m => (toordinal ws * DAY <=? instant m) && (instant m <? toordinal we * DAY)
  | None => false
  end.

(** Modelled from the spec: step 5 of section 4.2 on the occurrences of
    one component, which the source leaves to recurring_ical_events. *)
Definition retained (doc : CalendarDocument) (c : EventComponent)
    (ws we : date) : list (option moment * event) :=
  filter (λ p, in_window ws we p.2 = true) (occurrences doc c ws we).

(** Modelled from the spec: the order of step 7 of section 4.2, which the
    source leaves to recurring_ical_events: the retained occurrences of the
    components [cs], numbered from [n], in document order. *)
Fixpoint produce (doc : CalendarDocument) (n : nat) (cs : list EventComponent)
    (ws we : date) : list (nat * option moment * event) :=
  match cs with
  | [] => []
  | c :: cs' =>
      ((λ p, (n, p.1, p.2)) <$> retained doc c ws we)
      ++ produce doc (S n) cs' ws we
  end.

(** Modelled from the spec: steps 1 to 5 and the order of step 7 of
    section 4.2, which the source leaves to
    [recurring_ical_events.of(calendar).between(start, end)]. *)
Definition expand (doc : CalendarDocument) (ws we : date) : list event :=
  (λ p, p.2) <$> produce doc 0 doc ws we.

(** Modelled from the spec: the call
    [recurring_ical_events.of(calendar).between(start, end)], which the
    source leaves to recurring_ical_events: the requirement of section 4.2
    on the inputs ([window_start] at most [window_end], InvalidWindowError
    otherwise), then steps 1 to 5. *)
Definition between (doc : CalendarDocument) (ws we : date) : py (list event) :=
  if toordinal we <? toordinal ws then Raise InvalidWindowError
  else Return (expand doc ws we).

(** Modelled from the spec: the order of step 7 of section 4.2 on what
    [produce] yields, which the source leaves to recurring_ical_events: an
    earlier component first, and within one master the earlier generated
    instant first. *)
Definition precedes (p q : nat * option moment * event) : Prop :=
  (p.1.1 < q.1.1)%nat
  ∨ (p.1.1 = q.1.1
     ∧ ∃ a b, p.1.2 = Some a ∧ q.1.2 = Some b ∧ instant a < instant b).

End Expansion.
End Expander.

Module Parser.

(** Modelled from the spec: the Calendar Parser of section 4.1, which the
    source leaves to [icalendar.Calendar.from_ical]: a text that is not
    well-formed iCalendar is refused with a ParseError. *)
Definition contract {Calendar : Type} (well_formed : bytes → Prop)
    (from_ical : bytes → py Calendar) : Prop :=
  ∀ s, ¬ well_formed s → from_ical s = Raise ParseError.

End Parser.

(** ** The canonical value model

    The vocabulary of section 3 of the specification, read on Python
    objects. *)

Module Canonical.

(** The shapes of a property value that have a mapping rule: a
    [vDDDTypes] around a date-time, a date or a duration, a text, an
    integer. *)
Definition supported (v : pyobj) : bool :=
  match v with
  | vDDDTypes (Datetime _ | Date _ | Timedelta _) => true
  | vText _ | PyInt _ | PyStr _ => true
  | _ => false
  end.

(** The five kinds of a normalized value: a UTC-zoned instant, a civil
    date, a duration, an integer, a text. *)
Inductive kind : Type := Instant | CivilDate | Duration | Integer | Text.

Definition kind_of (w : pyobj) : option kind :=
  match w with
  | Datetime _ => Some Instant
  | Date _ => Some CivilDate
  | Timedelta _ => Some Duration
  | PyInt _ => Some Integer
  | PyStr _ | vText _ => Some Text
  | _ => None
  end.

(** A canonical value has one of the five kinds, and its zone is
    [timezone.utc] when it is an instant. *)
Definition canonical (w : pyobj) : Prop :=
  is_Some (kind_of w) ∧ ∀ d, w = Datetime d → tzinfo_of d = Some timezone_utc.

(** The error section 7 calls UnsupportedPropertyTypeError is the
    [RuntimeError] of the source. *)
Definition unsupported_property_error (e : exn) : Prop :=
  ∃ msg, e = RuntimeError msg.

(** An interpolated object of a message. *)
Definition mentions (msg : list fragment) (o : pyobj) : Prop := Fmt o ∈ msg.

End Canonical.

(** ** What a value converts to

    The chain of tests of lines 16-33 read as a table: which values are
    accepted, and what is stored for each. *)

Module Table.

(** The offset taken off a date-time: that of its zone at its wall clock,
    or for a naive one the offset found on the machine, when there is
    one. *)
Definition offset (local : tzinfo) (d : datetime) : option Z :=
  match tzinfo_of d with
  | Some z => Some (utcoffset z (wall d))
  | None =>
      match local_utcoffset local d with
      | Return off => Some off
      | Raise _ => None
      end
  end.

(** The values the chain accepts: a supported shape, and for a date-time
    an offset that is found and leaves the instant inside the range of
    [datetime]. *)
Definition convertible (local : tzinfo) (v : pyobj) : bool :=
  match v with
  | vDDDTypes (Datetime d) =>
      match offset local d with
      | Some off => representable (wall d - off)
      | None => false
      end
  | _ => Canonical.supported v
  end.

(** The object stored for an accepted value: the instant on the UTC clock
    for a date-time, the bare [dt] for the other [vDDDTypes], the value
    itself otherwise. *)
Definition converted (local : tzinfo) (v : pyobj) : pyobj :=
  match v with
  | vDDDTypes (Datetime d) =>
      Datetime (mkdatetime (wall d - default 0 (offset local d))
                  (Some timezone_utc))
  | vDDDTypes dt => dt
  | _ => v
  end.


End Table.

(** ** Sample calendars

    Concrete collaborators for the examples: three calendar texts, a parser
    that knows exactly these, a fetcher that knows one URL. *)

Module Sample.

#[global] Instance byte_eq_dec : EqDecision Byte.byte := Byte.byte_eq_dec.

Definition AEDT : tzinfo := timezone_hours "AEDT" 11.
Definition AEST : tzinfo := timezone_hours "AEST" 10.

Definition crlf : string :=
  String (Ascii.ascii_of_nat 13) (String (Ascii.ascii_of_nat 10) "").

Definition ics (lines : list string) : bytes :=
  String.list_byte_of_string
    (foldr (λ l acc, l +:+ crlf +:+ acc) ""
       (["BEGIN:VCALENDAR"; "BEGIN:VEVENT"] ++ lines ++ ["END:VEVENT"; "END:VCALENDAR"])).

(** One meeting on 2019-03-10 at 10:00, eleven hours east of UTC. *)
Definition meeting_ics : bytes :=
  ics ["UID:meeting"; "DTSTART;TZID=AEDT:20190310T100000"; "SUMMARY:Meeting"].

Definition meeting_event : event :=
  [("UID", vText "meeting");
   ("DTSTART", vDDDTypes (Datetime (datetime_of 2019 3 10 10 0 0 (Some AEDT))));
   ("SEQUENCE", PyInt 0);
   ("SUMMARY", vText "Meeting")].

Definition meeting_doc : Expander.CalendarDocument :=
  [Expander.mkcomponent meeting_event "meeting" None [] [] None].

(** An all-day event on 2019-03-05, repeated on the two following days. *)
Definition daily_ics : bytes :=
  ics ["UID:bins"; "DTSTART;VALUE=DATE:20190305"; "RRULE:FREQ=DAILY;COUNT=3";
       "SUMMARY:Bins"].

Definition T1 : date := date_of 2019 3 5.
Definition T2 : date := date_of 2019 3 6.
Definition T3 : date := date_of 2019 3 7.

Definition daily_rule : Expander.RecurrenceRule :=
  Expander.mkrule (λ _ _, [Expander.OnDate T1; Expander.OnDate T2; Expander.OnDate T3]).

Definition daily_event : event :=
  [("UID", vText "bins");
   ("DTSTART", vDDDTypes (Date T1));
   ("SUMMARY", vText "Bins")].

Definition daily_master : Expander.EventComponent :=
  Expander.mkcomponent daily_event "bins" (Some daily_rule) [] [] None.

Definition daily_doc : Expander.CalendarDocument := [daily_master].

(** A meeting with two attendees: the property comes back as a list. *)
Definition invited_ics : bytes :=
  ics ["UID:invited"; "DTSTART;VALUE=DATE:20190310";
       "ATTENDEE:mailto:a@example.org"; "ATTENDEE:mailto:b@example.org"].

Definition invited_event (guests : list pyobj) : event :=
  [("UID", vText "invited");
   ("DTSTART", vDDDTypes (Date (date_of 2019 3 10)));
   ("ATTENDEE", PyList guests)].

Definition invited_doc : Expander.CalendarDocument :=
  [Expander.mkcomponent
     (invited_event [PyStr "mailto:a@example.org"; PyStr "mailto:b@example.org"])
     "invited" None [] [] None].

(** A text cut off inside its event. *)
Definition truncated_ics : bytes :=
  String.list_byte_of_string ("BEGIN:VCALENDAR" +:+ crlf +:+ "BEGIN:VEVENT" +:+ crlf).

(** The records the samples are expected to give. *)
Definition meeting_record : gmap string pyobj :=
  <["SUMMARY" := vText "Meeting"]>
    (<["SEQUENCE" := PyInt 0]>
       (<["DTSTART" := Datetime (datetime_of 2019 3 9 23 0 0 (Some timezone_utc))]>
          (<["UID" := vText "meeting"]> ∅))).

Definition daily_record (d : date) : gmap string pyobj :=
  <["SUMMARY" := vText "Bins"]>
    (<["DTSTART" := Date d]> (<["UID" := vText "bins"]> ∅)).

Definition well_formed (s : bytes) : Prop :=
  s = meeting_ics ∨ s = daily_ics ∨ s = invited_ics.

Definition from_ical (s : bytes) : py Expander.CalendarDocument :=
  if decide (s = meeting_ics) then Return meeting_doc
  else if decide (s = daily_ics) then Return daily_doc
  else if decide (s = invited_ics) then Return invited_doc
  else Raise ParseError.

Definition meeting_url : string := "http://calendar.example.org/meeting.ics".

Definition urlopen_read (url : string) : py bytes :=
  if decide (url = meeting_url) then Return meeting_ics else Raise FetchError.

(** The two functions on the sample collaborators, on a machine set to
    [AEST]. *)
Definition read_calendar : bytes → date → date → py (list (gmap string pyobj)) :=
  Tokio.read_calendar AEST Expander.CalendarDocument from_ical
    (Expander.between AEST).

Definition read_calendar_url : string → date → date → py (list (gmap string pyobj)) :=
  Backend.read_calendar AEST Expander.CalendarDocument urlopen_read from_ical
    (Expander.between AEST).

(** A fetcher that serves the meeting at the address of the scripts. *)
Definition script_urlopen_read (url : string) : py bytes :=
  if decide (url = "http://tinyurl.com/y24m3r8f") then Return meeting_ics
  else Raise FetchError.

(** An occurrence whose first key holds a date-time one hour after
    [datetime.min], eleven hours east of UTC, and whose second key holds a
    list. *)
Definition edge_event : event :=
  [("DTSTART", vDDDTypes (Datetime (datetime_of 1 1 1 1 0 0 (Some AEDT))));
   ("ATTENDEE", PyList [])].

(** A naive date-time: 10:00 on 2019-03-10 on the clock of the machine. *)
Definition floating : datetime := datetime_of 2019 3 10 10 0 0 None.

(** A naive date-time on the first day of the calendar: noon on
    0001-01-01. *)
Definition first_noon : datetime := datetime_of 1 1 1 12 0 0 None.

(** A machine in Melbourne during 2019, on the UTC clock: standard time
    from 2019-04-06T16:00 to 2019-10-05T16:00, daylight time before and
    after. *)
Definition Melbourne : tzinfo :=
  mktz "Australia/Melbourne"
    (λ u, if (wall (datetime_of 2019 4 6 16 0 0 None) <=? u)
             && (u <? wall (datetime_of 2019 10 5 16 0 0 None))
          then 10 * 3600 * SECOND else 11 * 3600 * SECOND).

(** An occurrence with a duration, a text, an integer and a [str]. *)
Definition nap_event : event :=
  [("SUMMARY", vText "Nap");
   ("DURATION", vDDDTypes (Timedelta (mktimedelta (30 * 60 * 1000000))));
   ("PRIORITY", PyInt 5);
   ("URL", PyStr "http://example.org/nap")].

Definition nap_record : gmap string pyobj :=
  <["URL" := PyStr "http://example.org/nap"]>
    (<["PRIORITY" := PyInt 5]>
       (<["DURATION" := Timedelta (mktimedelta (30 * 60 * 1000000))]>
          (<["SUMMARY" := vText "Nap"]> ∅))).

(** Collaborators that hand back given occurrences for any text and any
    window. *)
Definition any_from_ical (s : bytes) : py unit := Return ().

Definition any_between (events : list event) (cal : unit) (a b : date) :
    py (list event) :=
  Return events.

End Sample.

(** * Theorems *)

Example ordinal_2019_03_05 : toordinal (date_of 2019 3 5) = 737123.
Proof. reflexivity. Qed.

Example ordinal_max : toordinal (date_of 9999 12 31) = MAXORDINAL.
Proof. reflexivity. Qed.

(** ** Dictionaries and the exception monad *)

Lemma bind_Return {A B} (m : py A) (f : A → py B) (b : B) :
  m ≫= f = Return b → ∃ a, m = Return a ∧ f a = Return b.
Proof. destruct m as [a|e]; [eauto | discriminate]. Qed.

Lemma bind_Raise {A B} (m : py A) (f : A → py B) (e : exn) :
  m ≫= f = Raise e → m = Raise e ∨ ∃ a, m = Return a ∧ f a = Raise e.
Proof. destruct m as [a|e']; [right; eauto | intros [= ->]; by left]. Qed.

Lemma getitem_Return (e : event) (i : string) (v : pyobj) :
  getitem e i = Return v → (i, v) ∈ e.
Proof.
  induction e as [|[k v'] e IH]; simpl; [discriminate|].
  case_decide as Hk.
  - intros [= ->]. subst. left.
  - intros H. right. auto.
Qed.

Lemma getitem_key (e : event) (i : string) (v : pyobj) :
  getitem e i = Return v → i ∈ keys e.
Proof.
  intros H%getitem_Return. unfold keys.
  apply list_elem_of_fmap. by exists (i, v).
Qed.

Lemma getitem_keys (e : event) (i : string) :
  i ∈ keys e → ∃ v, getitem e i = Return v.
Proof.
  unfold keys. induction e as [|[k v] e IH]; simpl.
  - by intros ?%elem_of_nil.
  - intros [->|Hin]%elem_of_cons; case_decide; eauto; congruence.
Qed.

Lemma getitem_Raise (e : event) (i : string) (x : exn) :
  getitem e i = Raise x → x = KeyError i ∧ i ∉ keys e.
Proof.
  intros H. split.
  - induction e as [|[k v] e IH]; simpl in H; [congruence|].
    case_decide; [discriminate | auto].
  - intros [v Hv]%getitem_keys. congruence.
Qed.

(** ** The conversion of one value *)

Section Conversion.

Import Canonical.

Variable local_timezone : tzinfo.

Abbreviation convert := (Tokio.convert local_timezone).

(** The chain of [isinstance] tests, read by the shape of the value. *)
Lemma convert_cases (i : string) (v : pyobj) :
  convert i v =
    match v with
    | vDDDTypes (Datetime d) => Datetime <$> datetime_astimezone_utc local_timezone d
    | vDDDTypes (Date d) => Return (Date d)
    | vDDDTypes (Timedelta t) => Return (Timedelta t)
    | vDDDTypes dt =>
        Raise (RuntimeError
                 [Lit "Unknown type for "; Fmt dt; Lit " key "; Fmt (PyStr i)])
    | vText _ | PyInt _ | PyStr _ => Return v
    | _ => Raise (RuntimeError [Lit "Unknown type for "; Fmt (PyStr i)])
    end.
Proof.
  destruct v as [| | | | | | | |dt| |]; try reflexivity.
  destruct dt; reflexivity.
Qed.

(** The search for the zone of the machine raises [ValueError] only. *)
Lemma local_reading_Raise (u : Z) (e : exn) :
  local_reading local_timezone u = Raise e → e = ValueError.
Proof.
  unfold local_reading. destruct (representable _); [discriminate|].
  by intros [= <-].
Qed.

Lemma local_to_seconds_Raise (t : Z) (e : exn) :
  local_to_seconds local_timezone t = Raise e → e = ValueError.
Proof.
  unfold local_to_seconds. intros H.
  repeat match type of H with
    | context [local_reading local_timezone ?u] =>
        let E := fresh "E" in
        destruct (local_reading local_timezone u) eqn:E; simpl in H;
        [|apply local_reading_Raise in E; congruence]
    | context [if ?c then _ else _] => destruct c; simpl in H
    end; discriminate.
Qed.



Lemma local_utcoffset_Raise (d : datetime) (e : exn) :
  local_utcoffset local_timezone d = Raise e → e = ValueError.
Proof.
  unfold local_utcoffset.
  intros [H|(ts & _ & H)]%bind_Raise; [|discriminate].
  by apply local_to_seconds_Raise in H.
Qed.

Lemma astimezone_Return (d u : datetime) :
  datetime_astimezone_utc local_timezone d = Return u →
  tzinfo_of u = Some timezone_utc
  ∧ representable (wall u) = true
  ∧ (tzinfo_of d ≠ None → wall u = utc_instant local_timezone d)
  ∧ (tzinfo_of d = None →
       ∃ ts, local_to_seconds local_timezone (wall d / SECOND) = Return ts
             ∧ wall u = wall d - gmtoff local_timezone ts * SECOND).
Proof.
  unfold datetime_astimezone_utc, utc_instant.
  intros (off & Hoff & H)%bind_Return.
  destruct (representable (wall d - off)) eqn:Hrep; [|discriminate].
  injection H as <-. simpl. split; [done|]. split; [done|].
  destruct (tzinfo_of d) as [z|].
  - injection Hoff as <-. by split.
  - split; [done|]. intros _. unfold local_utcoffset in Hoff.
    apply bind_Return in Hoff as (ts & Hts & [= <-]). by exists ts.
Qed.

Lemma astimezone_Raise (d : datetime) (e : exn) :
  datetime_astimezone_utc local_timezone d = Raise e →
  (e = OverflowError
   ∧ (tzinfo_of d ≠ None →
        representable (utc_instant local_timezone d) = false))
  ∨ (e = ValueError ∧ tzinfo_of d = None).
Proof.
  unfold datetime_astimezone_utc, utc_instant.
  intros [H|(off & Hoff & H)]%bind_Raise.
  - right. destruct (tzinfo_of d); [discriminate|].
    by apply local_utcoffset_Raise in H.
  - left. destruct (representable (wall d - off)) eqn:Hrep; [discriminate|].
    injection H as <-. split; [done|].
    destruct (tzinfo_of d) as [z|]; [|done].
    injection Hoff as <-. done.
Qed.

Lemma convert_Return (i : string) (v w : pyobj) :
  convert i v = Return w → supported v = true ∧ canonical w.
Proof.
  rewrite convert_cases. unfold canonical.
  destruct v as [| | | | | | | |dt| |]; try discriminate;
    try (intros [= <-]; repeat split; eauto; discriminate).
  destruct dt; try discriminate;
    try (intros [= <-]; repeat split; eauto; discriminate).
  destruct (datetime_astimezone_utc local_timezone d) as [u|] eqn:Hu;
    [|discriminate].
  intros [= <-]. apply astimezone_Return in Hu as (Htz & _).
  repeat split; eauto. by intros ? [= <-].
Qed.

Lemma convert_unsupported (i : string) (v : pyobj) :
  supported v = false → ∃ msg, convert i v = Raise (RuntimeError msg).
Proof.
  rewrite convert_cases.
  destruct v as [| | | | | | | |dt| |]; try discriminate; eauto.
  destruct dt; try discriminate; eauto.
Qed.

(** The message of the outer [raise] is made of the key alone. *)
Lemma convert_unknown_type (i : string) (v : pyobj) :
  isinstance v vDDDTypes_t = false → supported v = false →
  convert i v = Raise (RuntimeError [Lit "Unknown type for "; Fmt (PyStr i)]).
Proof.
  rewrite convert_cases. by destruct v as [| | | | | | | |dt| |].
Qed.

(** The message of the inner [raise] holds the value and the key. *)
Lemma convert_unknown_dt (i : string) (dt : pyobj) :
  supported (vDDDTypes dt) = false →
  convert i (vDDDTypes dt)
  = Raise (RuntimeError
             [Lit "Unknown type for "; Fmt dt; Lit " key "; Fmt (PyStr i)]).
Proof. rewrite convert_cases. by destruct dt. Qed.

Lemma convert_Raise (i : string) (v : pyobj) (e : exn) :
  convert i v = Raise e →
  (supported v = false ∧ unsupported_property_error e)
  ∨ (∃ d, v = vDDDTypes (Datetime d) ∧ (e = OverflowError ∨ e = ValueError)).
Proof.
  rewrite convert_cases. unfold unsupported_property_error.
  destruct v as [| | | | | | | |dt| |]; try discriminate;
    try (intros [= <-]; left; eauto).
  destruct dt; try discriminate; try (intros [= <-]; left; eauto).
  destruct (datetime_astimezone_utc local_timezone d) as [u|x] eqn:Hu;
    [discriminate|].
  intros [= <-]. right. exists d. split; [done|].
  apply astimezone_Raise in Hu as [[-> _]|[-> _]]; auto.
Qed.

End Conversion.

(** ** The two loops *)

Section Loops.

Import Canonical.

Variable local_timezone : tzinfo.

Abbreviation convert := (Tokio.convert local_timezone).
Abbreviation for_keys := (Tokio.for_keys local_timezone).
Abbreviation record_of := (Tokio.record_of local_timezone).
Abbreviation for_events := (Tokio.for_events local_timezone).

(** What the inner loop leaves in [json_data]: every key it visited holds
    the conversion of the event's value, every other key is as before. *)
Lemma for_keys_Return (ev : event) (ks : list string)
    (json_data rec : gmap string pyobj) :
  for_keys ev ks json_data = Return rec →
  (∀ k, k ∈ ks →
     ∃ v w, getitem ev k = Return v ∧ convert k v = Return w ∧ rec !! k = Some w)
  ∧ (∀ k, k ∉ ks → rec !! k = json_data !! k).
Proof.
  revert json_data. induction ks as [|i ks IH]; intros json_data; simpl.
  - intros [= <-]. split; [by intros k ?%elem_of_nil | done].
  - intros (v & Hv & H)%bind_Return. apply bind_Return in H as (w & Hw & H).
    apply IH in H as [Hin Hout]. split.
    + intros k Hk. destruct (decide (k ∈ ks)) as [|Hnot]; [by apply Hin|].
      apply elem_of_cons in Hk as [->|]; [|done].
      exists v, w. by rewrite (Hout i Hnot), lookup_insert_eq.
    + intros k [Hne Hnot]%not_elem_of_cons.
      by rewrite (Hout k Hnot), lookup_insert_ne.
Qed.

(** The inner loop stops at the first value that does not convert. *)
Lemma for_keys_Raise (ev : event) (ks : list string)
    (json_data : gmap string pyobj) (e : exn) :
  ks ⊆ keys ev →
  for_keys ev ks json_data = Raise e →
  ∃ k v, k ∈ ks ∧ getitem ev k = Return v ∧ convert k v = Raise e.
Proof.
  revert json_data. induction ks as [|i ks IH]; intros json_data Hks; simpl.
  - discriminate.
  - destruct (getitem_keys ev i) as [v Hv]; [apply Hks; left|].
    rewrite Hv. simpl. destruct (convert i v) as [w|x] eqn:Hw; simpl.
    + intros (k & v' & ? & ?)%IH; [|set_solver].
      exists k, v'. split; [by right | done].
    + intros [= <-]. exists i, v. split; [left | done].
Qed.

Lemma record_of_Return (ev : event) (rec : gmap string pyobj) :
  record_of ev = Return rec →
  (∀ k v, getitem ev k = Return v →
     ∃ w, convert k v = Return w ∧ rec !! k = Some w)
  ∧ dom rec = list_to_set (keys ev).
Proof.
  intros [Hin Hout]%for_keys_Return. split.
  - intros k v Hv. destruct (Hin k) as (v' & w & Hv' & Hw & Hk).
    { by eapply getitem_key. }
    exists w. split; [congruence | done].
  - apply set_eq. intros k. rewrite elem_of_dom, elem_of_list_to_set.
    destruct (decide (k ∈ keys ev)) as [Hk|Hk].
    + destruct (Hin k Hk) as (? & w & _ & _ & ->). naive_solver.
    + rewrite (Hout k Hk), lookup_empty. split; [by intros [? ?] | done].
Qed.

Lemma record_of_Raise (ev : event) (e : exn) :
  record_of ev = Raise e →
  ∃ k v, getitem ev k = Return v ∧ convert k v = Raise e.
Proof.
  intros (k & v & _ & ? & ?)%for_keys_Raise; [eauto | done].
Qed.

(** The outer loop appends one record per event, in order. *)
Lemma for_events_Return (events : list event)
    (result recs : list (gmap string pyobj)) :
  for_events events result = Return recs ↔
  ∃ new, recs = result ++ new
         ∧ Forall2 (λ ev rec, record_of ev = Return rec) events new.
Proof.
  revert result recs.
  induction events as [|ev events IH]; intros result recs; simpl.
  - split.
    + intros [= <-]. exists []. by rewrite app_nil_r.
    + intros (new & -> & ->%Forall2_nil_inv_l). by rewrite app_nil_r.
  - split.
    + intros (rec & Hrec & H)%bind_Return.
      apply IH in H as (new & -> & Hnew).
      exists (rec :: new). rewrite <- app_assoc. by split; [|constructor].
    + intros (new & -> & (rec & new' & Hrec & Hnew & ->)%Forall2_cons_inv_l).
      rewrite Hrec. simpl. apply IH. exists new'. by rewrite <- app_assoc.
Qed.

Lemma for_events_Raise (events : list event)
    (result : list (gmap string pyobj)) (e : exn) :
  for_events events result = Raise e →
  ∃ ev, ev ∈ events ∧ record_of ev = Raise e.
Proof.
  revert result. induction events as [|ev events IH]; intros result; simpl.
  - discriminate.
  - intros [H|(rec & _ & H)]%bind_Raise.
    + exists ev. split; [left | done].
    + apply IH in H as (ev' & ? & ?). exists ev'. split; [by right | done].
Qed.

(** An event with an unsupported value stops the outer loop, wherever it
    stands among the events. *)
Lemma for_events_unsupported (events : list event)
    (result : list (gmap string pyobj)) (ev : event) (k : string) (v : pyobj) :
  ev ∈ events → getitem ev k = Return v → supported v = false →
  ∃ e, for_events events result = Raise e.
Proof.
  intros Hev Hv Hsup.
  destruct (for_events events result) as [recs|e] eqn:H; [|eauto].
  apply for_events_Return in H as (new & _ & Hnew).
  apply list_elem_of_lookup in Hev as [n Hn].
  destruct (Forall2_lookup_l _ _ _ _ _ Hnew Hn) as (rec & _ & Hrec).
  apply record_of_Return in Hrec as [Hval _].
  destruct (Hval k v Hv) as (w & [Hs _]%convert_Return & _). congruence.
Qed.

End Loops.

(** ** [read_calendar] of robotica-tokio *)

Section ReadCalendar.

Import Canonical.

Variable local_timezone : tzinfo.
Variable Calendar : Type.
Variable from_ical : bytes → py Calendar.
Variable between : Calendar → date → date → py (list event).

Abbreviation convert := (Tokio.convert local_timezone).
Abbreviation record_of := (Tokio.record_of local_timezone).
Abbreviation for_events := (Tokio.for_events local_timezone).
Abbreviation read_calendar :=
  (Tokio.read_calendar local_timezone Calendar from_ical between).

Lemma read_calendar_events (s : bytes) (a b : date) (cal : Calendar)
    (events : list event) :
  from_ical s = Return cal → between cal a b = Return events →
  read_calendar s a b = for_events events [].
Proof.
  intros Hcal Hev. unfold Tokio.read_calendar.
  rewrite Hcal. simpl. by rewrite Hev.
Qed.

(** A successful call went through the parser, the expander and one
    [record_of] per occurrence. *)
Lemma read_calendar_Return (s : bytes) (a b : date)
    (recs : list (gmap string pyobj)) :
  read_calendar s a b = Return recs →
  ∃ cal events,
    from_ical s = Return cal ∧ between cal a b = Return events
    ∧ Forall2 (λ ev rec, record_of ev = Return rec) events recs.
Proof.
  unfold Tokio.read_calendar.
  intros (cal & Hcal & H)%bind_Return.
  apply bind_Return in H as (events & Hev & H).
  apply for_events_Return in H as (new & -> & Hnew). eauto.
Qed.

(** A failed call failed in the parser, in the expander, or on one value of
    one occurrence. *)
Lemma read_calendar_Raise (s : bytes) (a b : date) (e : exn) :
  read_calendar s a b = Raise e →
  from_ical s = Raise e
  ∨ (∃ cal, from_ical s = Return cal ∧ between cal a b = Raise e)
  ∨ (∃ cal events ev k v,
       from_ical s = Return cal ∧ between cal a b = Return events
       ∧ ev ∈ events ∧ getitem ev k = Return v ∧ convert k v = Raise e).
Proof.
  unfold Tokio.read_calendar.
  intros [H|(cal & Hcal & H)]%bind_Raise; [by left|]. right.
  apply bind_Raise in H as [H|(events & Hev & H)]; [left; eauto|]. right.
  apply for_events_Raise in H as (ev & Hin & H).
  apply record_of_Raise in H as (k & v & ? & ?).
  exists cal, events, ev, k, v. eauto.
Qed.

(** The function raises nothing but what its collaborators raise, the
    [RuntimeError] of an unsupported value and the [OverflowError] or
    [ValueError] of a date-time at the edge of the calendar; no
    [KeyError], no [AttributeError]. *)
Lemma read_calendar_errors (s : bytes) (a b : date) (e : exn) :
  read_calendar s a b = Raise e →
  from_ical s = Raise e
  ∨ (∃ cal, from_ical s = Return cal ∧ between cal a b = Raise e)
  ∨ unsupported_property_error e
  ∨ e = OverflowError
  ∨ e = ValueError.
Proof.
  intros [H|[H|H]]%read_calendar_Raise; [by left | by right; left |].
  destruct H as (cal & events & ev & k & v & _ & _ & _ & _ & H).
  right; right. apply convert_Raise in H as [[_ ?]|(d & _ & [?|?])]; auto.
Qed.

(** C1.  Every value of every returned record is of exactly one of the five
    canonical kinds (a UTC-zoned instant, a civil date, a duration, an
    integer, a text) and every key of the occurrence has its value in the
    record; an occurrence with a value of any other shape makes the whole
    call fail. *)
Theorem read_calendar_values_canonical (s : bytes) (a b : date)
    (cal : Calendar) (events : list event) :
  from_ical s = Return cal → between cal a b = Return events →
  (∀ recs, read_calendar s a b = Return recs →
     Forall2 (λ ev (rec : gmap string pyobj),
                (∀ k, k ∈ keys ev → is_Some (rec !! k))
                ∧ (∀ k w, rec !! k = Some w →
                     canonical w ∧ ∃ c, ∀ c', kind_of w = Some c' ↔ c' = c))
       events recs)
  ∧ (∀ ev k v, ev ∈ events → getitem ev k = Return v → supported v = false →
       ∃ e, read_calendar s a b = Raise e).
Proof.
  intros Hcal Hev. rewrite (read_calendar_events _ _ _ _ _ Hcal Hev). split.
  - intros recs (new & -> & Hnew)%for_events_Return. simpl.
    eapply Forall2_impl; [exact Hnew|]. clear.
    intros ev rec [Hval Hdom]%record_of_Return. split.
    + intros k Hk. apply elem_of_dom. rewrite Hdom. by apply elem_of_list_to_set.
    + intros k w Hw.
      assert (k ∈ keys ev) as [v Hv]%getitem_keys.
      { apply (elem_of_list_to_set (C:=gset string)).
        rewrite <- Hdom. by apply elem_of_dom. }
      destruct (Hval k v Hv) as (w' & [_ Hcan]%convert_Return & Hw').
      assert (w' = w) as -> by congruence.
      split; [done|]. destruct Hcan as [[c Hc] _].
      exists c. intros c'. rewrite Hc. naive_solver.
  - intros ev k v. apply for_events_unsupported.
Qed.


(** C3.  A pure calendar date is stored as the very same [date]: its
    conversion cannot fail, the result is not a [datetime], and in every
    returned record the key holds the date of the occurrence. *)
Theorem read_calendar_date_unchanged (s : bytes) (a b : date)
    (recs : list (gmap string pyobj)) :
  read_calendar s a b = Return recs →
  (∃ cal events,
     from_ical s = Return cal ∧ between cal a b = Return events
     ∧ Forall2 (λ ev (rec : gmap string pyobj),
                  ∀ k d, getitem ev k = Return (vDDDTypes (Date d)) →
                    rec !! k = Some (Date d))
         events recs)
  ∧ (∀ i d, convert i (vDDDTypes (Date d)) = Return (Date d)
            ∧ isinstance (Date d) datetime_t = false
            ∧ kind_of (Date d) = Some CivilDate).
Proof.
  intros (cal & events & Hcal & Hev & Hrecs)%read_calendar_Return. split.
  - exists cal, events. split; [done|]. split; [done|].
    eapply Forall2_impl; [exact Hrecs|]. clear.
    intros ev rec [Hval _]%record_of_Return k d Hk.
    destruct (Hval _ _ Hk) as (w & Hw & Hrec).
    rewrite convert_cases in Hw. congruence.
  - intros i d. by rewrite convert_cases.
Qed.

(** C10.  A successful call returns one record per expanded occurrence, in
    the same order, and the keys of each record are the keys of its
    occurrence. *)
Theorem read_calendar_keys_preserved (s : bytes) (a b : date)
    (recs : list (gmap string pyobj)) :
  read_calendar s a b = Return recs →
  ∃ cal events,
    from_ical s = Return cal ∧ between cal a b = Return events
    ∧ length recs = length events
    ∧ Forall2 (λ ev (rec : gmap string pyobj),
                 record_of ev = Return rec ∧ dom rec = list_to_set (keys ev))
        events recs.
Proof.
  intros (cal & events & Hcal & Hev & Hrecs)%read_calendar_Return.
  exists cal, events. split; [done|]. split; [done|]. split.
  - symmetry. by eapply Forall2_length.
  - eapply Forall2_impl; [exact Hrecs|].
    intros ev rec Hrec. split; [done|]. by apply record_of_Return in Hrec as [_ ?].
Qed.

(** [read_calendar] raises no InvalidWindowError of its own: the call
    fails with one exactly when the parser or the expander raises it. *)
Lemma read_calendar_InvalidWindowError (s : bytes) (a b : date) :
  read_calendar s a b = Raise InvalidWindowError ↔
  from_ical s = Raise InvalidWindowError
  ∨ ∃ cal, from_ical s = Return cal ∧ between cal a b = Raise InvalidWindowError.
Proof.
  split.
  - intros [H|[H|H]]%read_calendar_Raise; [by left | by right |].
    destruct H as (cal & events & ev & k & v & _ & _ & _ & _ & H).
    apply convert_Raise in H as [[_ [msg ?]]|(d & _ & [?|?])]; discriminate.
  - unfold Tokio.read_calendar. intros [->|(cal & -> & H)]; [done|].
    simpl. by rewrite H.
Qed.

(** C7.  When the parser keeps the contract of section 4.1, a text that is
    not well-formed iCalendar makes the call fail with ParseError, for
    every window, and no record is returned. *)
Theorem read_calendar_ParseError (well_formed : bytes → Prop) (s : bytes)
    (a b : date) :
  Parser.contract well_formed from_ical → ¬ well_formed s →
  read_calendar s a b = Raise ParseError
  ∧ ∀ recs, read_calendar s a b ≠ Return recs.
Proof.
  intros Hparser Hs. unfold Tokio.read_calendar.
  rewrite (Hparser s Hs). by split.
Qed.

End ReadCalendar.

(** ** The expansion of section 4.2 *)

Section Expansion.

Import Expander.

Variable local_timezone : tzinfo.

Abbreviation instant := (Expander.instant local_timezone).
Abbreviation earlier := (λ a b : moment, instant a < instant b).

Lemma get_setitem_eq (e : event) (k : string) (v : pyobj) :
  get (setitem e k v) k = Some v.
Proof.
  unfold get. induction e as [|[k' v'] e IH]; simpl.
  - by rewrite decide_True.
  - destruct (decide (k' = k)) as [->|Hne]; simpl.
    + by rewrite decide_True.
    + by rewrite decide_False.
Qed.

Lemma get_setitem_ne (e : event) (k k' : string) (v : pyobj) :
  k ≠ k' → get (setitem e k v) k' = get e k'.
Proof.
  intros Hne. unfold get. induction e as [|[k0 v0] e IH]; simpl.
  - by rewrite decide_False.
  - destruct (decide (k0 = k)) as [->|Hk]; simpl.
    + by rewrite !decide_False.
    + destruct (decide (k0 = k')); [done | exact IH].
Qed.

Lemma moment_of_value_of (m : moment) : moment_of (value_of m) = Some m.
Proof. by destruct m. Qed.

(** A synthesized occurrence starts at its candidate. *)
Lemma dtstart_synthesize (c : EventComponent) (m : moment) :
  dtstart (synthesize local_timezone c m) = Some m.
Proof.
  unfold synthesize, dtstart at 1.
  destruct (dtstart (properties c)), (dtend (properties c));
    rewrite ?get_setitem_ne by done; rewrite get_setitem_eq; simpl;
    apply moment_of_value_of.
Qed.

Lemma elem_of_insert_instant (x m : moment) (l : list moment) :
  x ∈ insert_instant local_timezone m l → x = m ∨ x ∈ l.
Proof.
  induction l as [|y l IH]; simpl.
  - intros ->%list_elem_of_singleton. by left.
  - destruct (instant m <? instant y); [by intros [->|?]%elem_of_cons; auto|].
    destruct (instant m =? instant y); [auto|].
    intros [->|[->|?]%IH]%elem_of_cons; set_solver.
Qed.

Lemma insert_instant_sorted (m : moment) (l : list moment) :
  StronglySorted earlier l →
  StronglySorted earlier (insert_instant local_timezone m l).
Proof.
  induction 1 as [|y l Hl IH Hy]; simpl.
  - repeat constructor.
  - destruct (instant m <? instant y) eqn:Hlt.
    + apply Z.ltb_lt in Hlt. constructor; [by constructor|].
      constructor; [done|]. eapply Forall_impl; [exact Hy|]. simpl. lia.
    + destruct (instant m =? instant y) eqn:Heq; [by constructor|].
      apply Z.ltb_ge in Hlt. apply Z.eqb_neq in Heq.
      constructor; [done|]. apply Forall_forall.
      intros x [->|Hx]%elem_of_insert_instant; [lia|].
      by eapply Forall_forall in Hy.
Qed.

Lemma union_instants_sorted (l : list moment) :
  StronglySorted earlier (union_instants local_timezone l).
Proof.
  induction l as [|m l IH]; simpl; [constructor|].
  by apply insert_instant_sorted.
Qed.

Lemma StronglySorted_filter {A} (R : relation A) (P : A → Prop)
    `{∀ x, Decision (P x)} (l : list A) :
  StronglySorted R l → StronglySorted R (filter P l).
Proof.
  induction 1 as [|x l Hl IH Hx]; [constructor|].
  rewrite filter_cons. destruct (decide (P x)); [|done].
  constructor; [done|]. apply Forall_forall.
  intros y [_ Hy]%list_elem_of_filter. by eapply Forall_forall in Hx.
Qed.

(** The candidates of a master come in chronological order, each instant
    once. *)
Lemma candidates_sorted (c : EventComponent) (ws we : date) :
  StronglySorted earlier (candidates local_timezone c ws we).
Proof. apply StronglySorted_filter, union_instants_sorted. Qed.

(** No candidate stands at an instant an EXDATE names. *)
Lemma candidates_not_excluded (c : EventComponent) (ws we : date) (m x : moment) :
  m ∈ candidates local_timezone c ws we → x ∈ exdate c → instant x ≠ instant m.
Proof.
  unfold candidates. intros [Hex _]%list_elem_of_filter Hx Heq.
  unfold excluded in Hex. apply not_true_iff_false in Hex. apply Hex.
  apply existsb_exists. exists x. split; [by apply list_elem_of_In | lia].
Qed.

Abbreviation produce := (Expander.produce local_timezone).
Abbreviation retained := (Expander.retained local_timezone).
Abbreviation precedes := (Expander.precedes local_timezone).
Abbreviation later_instant :=
  (λ p q : option moment * event, ∃ a b, p.1 = Some a ∧ q.1 = Some b ∧ earlier a b).

Lemma retained_sorted (doc : CalendarDocument) (c : EventComponent)
    (ws we : date) :
  StronglySorted later_instant (retained doc c ws we).
Proof.
  apply StronglySorted_filter. unfold occurrences. destruct (role_of c).
  - repeat constructor.
  - apply (StronglySorted_fmap _ earlier); [|apply candidates_sorted].
    intros x y Hxy. by exists x, y.
  - constructor.
Qed.

(** What [produce] yields carries the number of its component. *)
Lemma elem_of_produce (doc : CalendarDocument) (n : nat)
    (cs : list EventComponent) (ws we : date) (p : nat * option moment * event) :
  p ∈ produce doc n cs ws we →
  ∃ i c, cs !! i = Some c ∧ p.1.1 = (n + i)%nat
         ∧ (p.1.2, p.2) ∈ retained doc c ws we.
Proof.
  revert n. induction cs as [|c cs IH]; intros n; simpl.
  - by intros ?%elem_of_nil.
  - intros [H|H]%elem_of_app.
    + apply list_elem_of_fmap in H as (q & -> & Hq).
      exists 0%nat, c. simpl. split; [done|]. split; [lia|]. by destruct q.
    + apply IH in H as (i & c' & ? & ? & ?).
      exists (S i), c'. simpl. split; [done|]. split; [lia | done].
Qed.

Lemma produce_sorted (doc : CalendarDocument) (n : nat)
    (cs : list EventComponent) (ws we : date) :
  StronglySorted precedes (produce doc n cs ws we).
Proof.
  revert n. induction cs as [|c cs IH]; intros n; simpl; [constructor|].
  apply StronglySorted_app_2.
  - intros p q (p0 & -> & _)%list_elem_of_fmap Hq.
    apply elem_of_produce in Hq as (i & c' & _ & Hi & _).
    left. simpl. lia.
  - apply (StronglySorted_fmap _ later_instant); [|apply retained_sorted].
    intros x y (a & b & ? & ? & ?). right. simpl. split; [done|].
    by exists a, b.
  - apply IH.
Qed.

Lemma in_window_synthesize (c : EventComponent) (m : moment) (ws we : date) :
  in_window local_timezone ws we (synthesize local_timezone c m)
  = (toordinal ws * DAY <=? instant m) && (instant m <? toordinal we * DAY).
Proof. unfold in_window. by rewrite dtstart_synthesize. Qed.

(** In a calendar of one master nothing overrides a candidate. *)
Lemma occurrence_at_alone (c : EventComponent) (m : moment) :
  role_of c = Master →
  occurrence_at local_timezone [c] c m = synthesize local_timezone c m.
Proof.
  unfold role_of, occurrence_at, overrides. simpl.
  destruct (recurrence_id c); [discriminate|]. intros _.
  by rewrite andb_false_r.
Qed.

Lemma retained_in_window (doc : CalendarDocument) (ws we : date) (e : event) :
  e ∈ expand local_timezone doc ws we →
  ∃ m, dtstart e = Some m
       ∧ toordinal ws * DAY ≤ instant m < toordinal we * DAY.
Proof.
  unfold expand. intros (p & -> & Hp)%list_elem_of_fmap.
  apply elem_of_produce in Hp as (_ & c & _ & _ & Hp).
  apply list_elem_of_filter in Hp as [Hw _]. simpl in Hw.
  unfold in_window in Hw. destruct (dtstart p.2) as [m|]; [|discriminate].
  exists m. split; [done|]. apply andb_true_iff in Hw as [?%Z.leb_le ?%Z.ltb_lt].
  lia.
Qed.

(** On a window that is not inverted the expander goes through its
    steps. *)
Lemma between_ordered (doc : CalendarDocument) (ws we : date) :
  toordinal ws ≤ toordinal we →
  Expander.between local_timezone doc ws we
  = Return (expand local_timezone doc ws we).
Proof.
  intros Hle. unfold Expander.between.
  by destruct (Z.ltb_spec (toordinal we) (toordinal ws)); [lia|].
Qed.

Lemma between_Return (doc : CalendarDocument) (ws we : date)
    (events : list event) :
  Expander.between local_timezone doc ws we = Return events →
  events = expand local_timezone doc ws we.
Proof.
  unfold Expander.between.
  destruct (toordinal we <? toordinal ws); [discriminate|]. by intros [= <-].
Qed.

(** With an inverted or empty window the steps retain nothing. *)
Lemma expand_inverted_window (doc : CalendarDocument) (ws we : date) :
  toordinal we ≤ toordinal ws → expand local_timezone doc ws we = [].
Proof.
  intros Hle. apply elem_of_nil_inv. intros e (m & _ & H)%retained_in_window.
  unfold DAY in H. lia.
Qed.

Section Calls.

Variable from_ical : bytes → py CalendarDocument.

Abbreviation read_calendar :=
  (Tokio.read_calendar local_timezone CalendarDocument from_ical
     (Expander.between local_timezone)).

(** C6.  The window is half-open.  For a calendar of one recurring event
    that generates the instants T1 < T2 < T3, the window from T1 to T2
    yields the occurrence at T1 alone: the call returns its one record (or
    fails as that occurrence fails).  In general every retained occurrence
    starts at or after the start of the window and strictly before its
    end. *)
Theorem window_is_half_open (s : bytes) (ws we : date) (c : EventComponent)
    (m1 m2 m3 : moment) :
  from_ical s = Return [c] →
  role_of c = Master →
  candidates local_timezone c ws we = [m1; m2; m3] →
  instant m1 = toordinal ws * DAY →
  instant m2 = toordinal we * DAY →
  instant m1 < instant m2 < instant m3 →
  expand local_timezone [c] ws we = [synthesize local_timezone c m1]
  ∧ read_calendar s ws we
    = (λ rec, [rec]) <$> Tokio.record_of local_timezone
                           (synthesize local_timezone c m1)
  ∧ (∀ doc ws' we' e, e ∈ expand local_timezone doc ws' we' →
       ∃ m, dtstart e = Some m
            ∧ toordinal ws' * DAY ≤ instant m < toordinal we' * DAY).
Proof.
  intros Hcal Hrole Hcand H1 H2 [H12 H23].
  assert (expand local_timezone [c] ws we = [synthesize local_timezone c m1])
    as Hexp.
  { unfold expand. simpl. unfold Expander.retained, occurrences.
    rewrite Hrole, Hcand. simpl. rewrite !occurrence_at_alone by done.
    rewrite !filter_cons, filter_nil. simpl. rewrite !in_window_synthesize.
    rewrite decide_True, !decide_False; [done| | |].
    - intros [_ ?%Z.ltb_lt]%andb_true_iff. lia.
    - intros [_ ?%Z.ltb_lt]%andb_true_iff. lia.
    - apply andb_true_iff. split; [apply Z.leb_le | apply Z.ltb_lt]; lia. }
  split; [done|]. split.
  - rewrite (read_calendar_events _ _ _ _ s ws we [c] _ Hcal
               (between_ordered [c] ws we ltac:(unfold DAY in *; lia))).
    rewrite Hexp. simpl.
    by destruct (Tokio.record_of local_timezone (synthesize local_timezone c m1)).
  - intros doc ws' we' e. apply retained_in_window.
Qed.

(** C8.  The records come in the order the occurrences were produced: the
    i-th record is the record of the i-th retained occurrence, and these
    stand in document order, the occurrences of one master in the
    chronological order of the instants that generated them. *)
Theorem records_in_production_order (s : bytes) (ws we : date)
    (doc : CalendarDocument) (recs : list (gmap string pyobj)) :
  from_ical s = Return doc →
  read_calendar s ws we = Return recs →
  Forall2 (λ p rec, Tokio.record_of local_timezone p.2 = Return rec)
    (produce doc 0 doc ws we) recs
  ∧ StronglySorted precedes (produce doc 0 doc ws we)
  ∧ Forall (λ p, ∃ c, doc !! p.1.1 = Some c
                      ∧ (p.1.2, p.2) ∈ retained doc c ws we)
      (produce doc 0 doc ws we).
Proof.
  intros Hcal Hret.
  destruct (read_calendar_Return _ _ _ _ _ _ _ _ Hret)
    as (doc' & events & Hcal' & Hev & Hnew).
  assert (doc' = doc) as -> by congruence.
  apply between_Return in Hev as ->.
  split; [|split].
  - unfold expand in Hnew. by apply Forall2_fmap_l in Hnew.
  - apply produce_sorted.
  - apply Forall_forall. intros p (i & c & ? & Hi & ?)%elem_of_produce.
    exists c. by rewrite Hi.
Qed.

(** C5.  On a window whose start lies after its end the call fails with
    InvalidWindowError, for every text the parser accepts, and returns no
    list, not even an empty one. *)
Theorem inverted_window_fails (s : bytes) (ws we : date)
    (doc : CalendarDocument) :
  from_ical s = Return doc →
  toordinal we < toordinal ws →
  read_calendar s ws we = Raise InvalidWindowError
  ∧ ∀ recs, read_calendar s ws we ≠ Return recs.
Proof.
  intros Hcal Hlt.
  assert (read_calendar s ws we = Raise InvalidWindowError) as ->; [|done].
  unfold Tokio.read_calendar. rewrite Hcal. simpl.
  unfold Expander.between.
  by destruct (Z.ltb_spec (toordinal we) (toordinal ws)); [|lia].
Qed.

End Calls.
End Expansion.

(** ** The two variants *)

Section Variants.

Variable local_timezone : tzinfo.
Variable Calendar : Type.
Variable urlopen_read : string → py bytes.
Variable from_ical : bytes → py Calendar.
Variable between : Calendar → date → date → py (list event).

Lemma backend_for_keys (ev : event) (ks : list string)
    (json_data : gmap string pyobj) :
  Backend.for_keys local_timezone ev ks json_data
  = Tokio.for_keys local_timezone ev ks json_data.
Proof.
  revert json_data. induction ks as [|i ks IH]; intros json_data; [done|].
  simpl. destruct (getitem ev i) as [v|]; [|done]. simpl.
  change (Backend.convert local_timezone i v)
    with (Tokio.convert local_timezone i v).
  destruct (Tokio.convert local_timezone i v); [apply IH | done].
Qed.

Lemma backend_record_of (ev : event) :
  Backend.record_of local_timezone ev = Tokio.record_of local_timezone ev.
Proof. apply backend_for_keys. Qed.

Lemma backend_for_events (events : list event)
    (result : list (gmap string pyobj)) :
  Backend.for_events local_timezone events result
  = Tokio.for_events local_timezone events result.
Proof.
  revert result. induction events as [|ev events IH]; intros result; [done|].
  simpl. rewrite backend_record_of.
  destruct (Tokio.record_of local_timezone ev); [apply IH | done].
Qed.

(** C9.  When fetching the URL yields a text, the function of
    robotica-backend on the URL is the function of robotica-tokio on that
    text, for every window; and the two files build the record of an
    occurrence by the same function. *)
Theorem backend_read_calendar_agrees (url : string) (s : bytes) (a b : date) :
  urlopen_read url = Return s →
  Backend.read_calendar local_timezone Calendar urlopen_read from_ical between
    url a b
  = Tokio.read_calendar local_timezone Calendar from_ical between s a b
  ∧ (∀ i v, Backend.convert local_timezone i v = Tokio.convert local_timezone i v)
  ∧ (∀ ev, Backend.record_of local_timezone ev
           = Tokio.record_of local_timezone ev).
Proof.
  intros Hurl. split; [|split].
  - unfold Backend.read_calendar, Tokio.read_calendar. rewrite Hurl. simpl.
    destruct (from_ical s) as [cal|]; [|done]. simpl.
    destruct (between cal a b) as [events|]; [|done]. simpl.
    apply backend_for_events.
  - done.
  - apply backend_record_of.
Qed.

End Variants.

(** ** The samples *)

Section Samples.

Import Canonical Sample.

Abbreviation march_5 := (date_of 2019 3 5).
Abbreviation april_1 := (date_of 2019 4 1).

Lemma sample_parser_contract : Parser.contract well_formed from_ical.
Proof.
  intros s Hs. unfold from_ical, well_formed in *.
  repeat case_decide; naive_solver.
Qed.

Lemma truncated_not_well_formed : ¬ well_formed truncated_ics.
Proof. intros [H|[H|H]]; vm_compute in H; discriminate H. Qed.

(** Scenario 7 of section 8: one meeting at 10:00 eleven hours east of UTC,
    read over March 2019, is one record whose DTSTART is 23:00 UTC of the
    day before. *)
Example meeting_scenario :
  read_calendar meeting_ics march_5 april_1 = Return [meeting_record].
Proof. vm_compute. reflexivity. Qed.

(** C4.  On a meeting with two attendees the call fails as a whole, and the
    message of the error names the key only: it does not contain the list
    found under the key, and another unsupported value under that key gives
    the very same error.  The other [raise] of the source, for a
    [vDDDTypes] around an unknown [dt], does put the value in its
    message. *)
Theorem unknown_type_message_omits_value :
  read_calendar invited_ics march_5 april_1
  = Raise (RuntimeError [Lit "Unknown type for "; Fmt (PyStr "ATTENDEE")])
  ∧ ¬ mentions [Lit "Unknown type for "; Fmt (PyStr "ATTENDEE")]
        (PyList [PyStr "mailto:a@example.org"; PyStr "mailto:b@example.org"])
  ∧ Tokio.convert AEST "ATTENDEE"
      (PyList [PyStr "mailto:a@example.org"; PyStr "mailto:b@example.org"])
    = Tokio.convert AEST "ATTENDEE" (PyObject "vRecur")
  ∧ ∃ msg, Tokio.convert AEST "DTSTART" (vDDDTypes (Time 0))
           = Raise (RuntimeError msg)
           ∧ mentions msg (PyStr "DTSTART") ∧ mentions msg (Time 0).
Proof.
  split; [by vm_compute|]. split.
  - unfold mentions. intros H.
    repeat (apply elem_of_cons in H as [H|H]; [discriminate H|]).
    by apply elem_of_nil in H.
  - split; [done|]. eexists. split; [reflexivity|].
    unfold mentions. split; set_solver.
Qed.

(** C1 on the meeting. *)
Lemma read_calendar_values_canonical_meeting :
  from_ical meeting_ics = Return meeting_doc
  ∧ Expander.between AEST meeting_doc march_5 april_1 = Return [meeting_event]
  ∧ (∀ recs, read_calendar meeting_ics march_5 april_1 = Return recs →
       Forall2 (λ ev (rec : gmap string pyobj),
                  (∀ k, k ∈ keys ev → is_Some (rec !! k))
                  ∧ (∀ k w, rec !! k = Some w →
                       canonical w ∧ ∃ c, ∀ c', kind_of w = Some c' ↔ c' = c))
         [meeting_event] recs)
  ∧ (∀ ev k v, ev ∈ [meeting_event] → getitem ev k = Return v →
       supported v = false →
       ∃ e, read_calendar meeting_ics march_5 april_1 = Raise e).
Proof.
  split; [vm_compute; reflexivity|]. split; [vm_compute; reflexivity|].
  apply (read_calendar_values_canonical AEST Expander.CalendarDocument
           from_ical (Expander.between AEST) meeting_ics march_5 april_1
           meeting_doc [meeting_event]); vm_compute; reflexivity.
Defined.


(** C3 on the first day of the daily event. *)
Lemma read_calendar_date_unchanged_daily :
  read_calendar daily_ics T1 T2 = Return [daily_record T1]
  ∧ (∃ cal events,
       from_ical daily_ics = Return cal
       ∧ Expander.between AEST cal T1 T2 = Return events
       ∧ Forall2 (λ ev (rec : gmap string pyobj),
                    ∀ k d, getitem ev k = Return (vDDDTypes (Date d)) →
                      rec !! k = Some (Date d))
           events [daily_record T1])
  ∧ (∀ i d, Tokio.convert AEST i (vDDDTypes (Date d)) = Return (Date d)
            ∧ isinstance (Date d) datetime_t = false
            ∧ kind_of (Date d) = Some CivilDate).
Proof.
  split; [vm_compute; reflexivity|].
  apply (read_calendar_date_unchanged AEST Expander.CalendarDocument from_ical
           (Expander.between AEST) daily_ics T1 T2 [daily_record T1]).
  vm_compute; reflexivity.
Defined.

(** C10 on the three days of the daily event. *)
Lemma read_calendar_keys_preserved_daily :
  read_calendar daily_ics T1 april_1
  = Return [daily_record T1; daily_record T2; daily_record T3]
  ∧ ∃ cal events,
      from_ical daily_ics = Return cal
      ∧ Expander.between AEST cal T1 april_1 = Return events
      ∧ length [daily_record T1; daily_record T2; daily_record T3] = length events
      ∧ Forall2 (λ ev (rec : gmap string pyobj),
                   Tokio.record_of AEST ev = Return rec
                   ∧ dom rec = list_to_set (keys ev))
          events [daily_record T1; daily_record T2; daily_record T3].
Proof.
  split; [vm_compute; reflexivity|].
  apply (read_calendar_keys_preserved AEST Expander.CalendarDocument from_ical
           (Expander.between AEST) daily_ics T1 april_1).
  vm_compute; reflexivity.
Defined.

(** C7 on a text cut off inside its event. *)
Lemma read_calendar_ParseError_truncated :
  Parser.contract well_formed from_ical
  ∧ ¬ well_formed truncated_ics
  ∧ read_calendar truncated_ics march_5 april_1 = Raise ParseError
  ∧ ∀ recs, read_calendar truncated_ics march_5 april_1 ≠ Return recs.
Proof.
  split; [exact sample_parser_contract|].
  split; [exact truncated_not_well_formed|].
  exact (read_calendar_ParseError AEST Expander.CalendarDocument from_ical
           (Expander.between AEST) well_formed truncated_ics march_5 april_1
           sample_parser_contract truncated_not_well_formed).
Defined.

(** C6 on the daily event, read from its first day to its second. *)
Lemma window_is_half_open_daily :
  from_ical daily_ics = Return [daily_master]
  ∧ Expander.role_of daily_master = Expander.Master
  ∧ Expander.candidates AEST daily_master T1 T2
    = [Expander.OnDate T1; Expander.OnDate T2; Expander.OnDate T3]
  ∧ Expander.instant AEST (Expander.OnDate T1) = toordinal T1 * DAY
  ∧ Expander.instant AEST (Expander.OnDate T2) = toordinal T2 * DAY
  ∧ Expander.instant AEST (Expander.OnDate T1)
    < Expander.instant AEST (Expander.OnDate T2)
    < Expander.instant AEST (Expander.OnDate T3)
  ∧ Expander.expand AEST [daily_master] T1 T2
    = [Expander.synthesize AEST daily_master (Expander.OnDate T1)]
  ∧ read_calendar daily_ics T1 T2
    = (λ rec, [rec]) <$> Tokio.record_of AEST
                           (Expander.synthesize AEST daily_master (Expander.OnDate T1))
  ∧ (∀ doc ws' we' e, e ∈ Expander.expand AEST doc ws' we' →
       ∃ m, Expander.dtstart e = Some m
            ∧ toordinal ws' * DAY ≤ Expander.instant AEST m < toordinal we' * DAY).
Proof.
  split; [vm_compute; reflexivity|]. split; [reflexivity|].
  split; [vm_compute; reflexivity|]. split; [reflexivity|].
  split; [reflexivity|]. split; [vm_compute; split; reflexivity|].
  apply (window_is_half_open AEST from_ical daily_ics T1 T2 daily_master
           (Expander.OnDate T1) (Expander.OnDate T2) (Expander.OnDate T3));
    try (vm_compute; reflexivity).
  vm_compute; split; reflexivity.
Defined.

(** C8 on the three days of the daily event. *)
Lemma records_in_production_order_daily :
  from_ical daily_ics = Return daily_doc
  ∧ read_calendar daily_ics T1 april_1
    = Return [daily_record T1; daily_record T2; daily_record T3]
  ∧ Forall2 (λ p rec, Tokio.record_of AEST p.2 = Return rec)
      (Expander.produce AEST daily_doc 0 daily_doc T1 april_1)
      [daily_record T1; daily_record T2; daily_record T3]
  ∧ StronglySorted (Expander.precedes AEST)
      (Expander.produce AEST daily_doc 0 daily_doc T1 april_1)
  ∧ Forall (λ p, ∃ c, daily_doc !! p.1.1 = Some c
                      ∧ (p.1.2, p.2) ∈ Expander.retained AEST daily_doc c T1 april_1)
      (Expander.produce AEST daily_doc 0 daily_doc T1 april_1).
Proof.
  split; [vm_compute; reflexivity|]. split; [vm_compute; reflexivity|].
  apply (records_in_production_order AEST from_ical daily_ics T1 april_1
           daily_doc [daily_record T1; daily_record T2; daily_record T3]);
    vm_compute; reflexivity.
Defined.

(** C9 on the URL of the meeting. *)
Lemma backend_read_calendar_agrees_meeting :
  urlopen_read meeting_url = Return meeting_ics
  ∧ read_calendar_url meeting_url march_5 april_1
    = read_calendar meeting_ics march_5 april_1
  ∧ (∀ i v, Backend.convert AEST i v = Tokio.convert AEST i v)
  ∧ (∀ ev, Backend.record_of AEST ev = Tokio.record_of AEST ev).
Proof.
  split; [reflexivity|].
  apply (backend_read_calendar_agrees AEST Expander.CalendarDocument
           urlopen_read from_ical (Expander.between AEST) meeting_url
           meeting_ics march_5 april_1).
  reflexivity.
Defined.

End Samples.

(** ** More on the conversion *)

Section ConversionTable.

Import Canonical Table.

Variable local_timezone : tzinfo.

Abbreviation convert := (Tokio.convert local_timezone).
Abbreviation convertible := (Table.convertible local_timezone).
Abbreviation converted := (Table.converted local_timezone).

(** The chain of tests agrees with the table. *)
Lemma convert_table (i : string) (v w : pyobj) :
  convert i v = Return w ↔ convertible v = true ∧ w = converted v.
Proof.
  rewrite convert_cases.
  destruct v as [| | | | | | | |dt| |]; simpl;
    try (split; [intros [= <-]; by split | by intros [_ ->]]);
    try (split; [discriminate | by intros [? _]]).
  destruct dt; simpl;
    try (split; [intros [= <-]; by split | by intros [_ ->]]);
    try (split; [discriminate | by intros [? _]]).
  unfold datetime_astimezone_utc, Table.offset.
  destruct (tzinfo_of d) as [z|]; simpl.
  - destruct (representable (wall d - utcoffset z (wall d))); simpl.
    + split; [intros [= <-]; by split | by intros [_ ->]].
    + split; [discriminate | by intros [? _]].
  - destruct (local_utcoffset local_timezone d) as [off|]; simpl.
    + destruct (representable (wall d - off)); simpl.
      * split; [intros [= <-]; by split | by intros [_ ->]].
      * split; [discriminate | by intros [? _]].
    + split; [discriminate | by intros [? _]].
Qed.

Lemma convert_not_convertible (i : string) (v : pyobj) :
  convertible v = false → ∃ e, convert i v = Raise e.
Proof.
  intros Hv. destruct (convert i v) as [w|e] eqn:H; [|eauto].
  apply convert_table in H as [? _]. congruence.
Qed.

(** X1.  A text, an integer or a [str] is stored as the very object found
    under the key: the conversion cannot fail, a [vText] stays a [vText],
    and every returned record holds the value of its occurrence under the
    same key. *)
Theorem read_calendar_scalar_unchanged (Calendar : Type)
    (from_ical : bytes → py Calendar)
    (between : Calendar → date → date → py (list event))
    (s : bytes) (a b : date) (recs : list (gmap string pyobj)) :
  Tokio.read_calendar local_timezone Calendar from_ical between s a b
  = Return recs →
  (∃ cal events,
     from_ical s = Return cal ∧ between cal a b = Return events
     ∧ Forall2 (λ ev (rec : gmap string pyobj),
                  ∀ k v, getitem ev k = Return v →
                    isinstance v vDDDTypes_t = false → rec !! k = Some v)
         events recs)
  ∧ (∀ i v, isinstance v vDDDTypes_t = false → supported v = true →
       convert i v = Return v).
Proof.
  intros (cal & events & Hcal & Hev & Hrecs)%read_calendar_Return. split.
  - exists cal, events. split; [done|]. split; [done|].
    eapply Forall2_impl; [exact Hrecs|]. clear.
    intros ev rec [Hval _]%record_of_Return k v Hk Hv.
    destruct (Hval _ _ Hk) as (w & [_ ->]%convert_table & Hrec).
    rewrite Hrec. by destruct v.
  - intros i v Hv Hs. apply convert_table.
    by destruct v.
Qed.

(** X2.  A duration is stored as the bare [timedelta], without its
    [vDDDTypes] wrapper: the conversion cannot fail, and every returned
    record holds the [timedelta] of its occurrence under the same key. *)
Theorem read_calendar_duration_unwrapped (Calendar : Type)
    (from_ical : bytes → py Calendar)
    (between : Calendar → date → date → py (list event))
    (s : bytes) (a b : date) (recs : list (gmap string pyobj)) :
  Tokio.read_calendar local_timezone Calendar from_ical between s a b
  = Return recs →
  (∃ cal events,
     from_ical s = Return cal ∧ between cal a b = Return events
     ∧ Forall2 (λ ev (rec : gmap string pyobj),
                  ∀ k t, getitem ev k = Return (vDDDTypes (Timedelta t)) →
                    rec !! k = Some (Timedelta t))
         events recs)
  ∧ (∀ i t, convert i (vDDDTypes (Timedelta t)) = Return (Timedelta t)).
Proof.
  intros (cal & events & Hcal & Hev & Hrecs)%read_calendar_Return. split.
  - exists cal, events. split; [done|]. split; [done|].
    eapply Forall2_impl; [exact Hrecs|]. clear.
    intros ev rec [Hval _]%record_of_Return k t Hk.
    by destruct (Hval _ _ Hk) as (w & [_ ->]%convert_table & Hrec).
  - intros i t. by apply convert_table.
Qed.

Lemma utc_instant_utc (x : Z) :
  utc_instant local_timezone (mkdatetime x (Some timezone_utc)) = x.
Proof. unfold utc_instant. simpl. lia. Qed.

(** X5.  Converting is idempotent on date-times: what the function stores
    for a date-time, wrapped again and converted again under any key, is
    stored as it is. *)
Theorem convert_datetime_idempotent (i j : string) (d : datetime) (w : pyobj) :
  convert i (vDDDTypes (Datetime d)) = Return w →
  convert j (vDDDTypes w) = Return w.
Proof.
  intros [Hrep ->]%convert_table. apply convert_table.
  unfold Table.convertible, Table.converted in *.
  destruct (Table.offset local_timezone d) as [off|]; [|discriminate].
  unfold Table.offset. simpl. by rewrite Z.sub_0_r.
Qed.

End ConversionTable.

(** ** More on the loops *)

Section LoopsAgain.

Import Canonical Table.

Variable local_timezone : tzinfo.
Variable Calendar : Type.
Variable from_ical : bytes → py Calendar.
Variable between : Calendar → date → date → py (list event).

Abbreviation convert := (Tokio.convert local_timezone).
Abbreviation convertible := (Table.convertible local_timezone).
Abbreviation for_keys := (Tokio.for_keys local_timezone).
Abbreviation record_of := (Tokio.record_of local_timezone).
Abbreviation for_events := (Tokio.for_events local_timezone).
Abbreviation read_calendar :=
  (Tokio.read_calendar local_timezone Calendar from_ical between).

Lemma for_keys_app (ev : event) (ks1 ks2 : list string)
    (json_data : gmap string pyobj) :
  for_keys ev (ks1 ++ ks2) json_data
  = for_keys ev ks1 json_data ≫= for_keys ev ks2.
Proof.
  revert json_data. induction ks1 as [|i ks1 IH]; intros json_data; [done|].
  simpl. destruct (getitem ev i) as [v|]; [|done]. simpl.
  destruct (convert i v); [apply IH | done].
Qed.

Lemma for_events_app (evs1 evs2 : list event)
    (result : list (gmap string pyobj)) :
  for_events (evs1 ++ evs2) result
  = for_events evs1 result ≫= for_events evs2.
Proof.
  revert result. induction evs1 as [|ev evs1 IH]; intros result; [done|].
  simpl. destruct (record_of ev); [apply IH | done].
Qed.

(** The inner loop runs to its end when every key it visits holds a
    convertible value. *)
Lemma for_keys_convertible (ev : event) (ks : list string)
    (json_data : gmap string pyobj) :
  Forall (λ k, ∀ v, getitem ev k = Return v → convertible v = true) ks →
  ks ⊆ keys ev →
  ∃ rec, for_keys ev ks json_data = Return rec.
Proof.
  revert json_data. induction ks as [|i ks IH]; intros json_data Hks Hsub.
  - by eexists.
  - apply Forall_cons in Hks as [Hi Hks]. simpl.
    destruct (getitem_keys ev i) as [v Hv]; [apply Hsub; left|].
    rewrite Hv. simpl.
    destruct (convert i v) as [w|e] eqn:Hw.
    + simpl. apply IH; [done | set_solver].
    + specialize (Hi v Hv).
      assert (convert i v = Return (Table.converted local_timezone v))
        by (by apply convert_table).
      congruence.
Qed.

Lemma record_of_returns_iff (ev : event) :
  (∃ rec, record_of ev = Return rec) ↔
  ∀ k v, getitem ev k = Return v → convertible v = true.
Proof.
  split.
  - intros [rec [Hval _]%record_of_Return] k v Hk.
    by destruct (Hval k v Hk) as (w & [? _]%convert_table & _).
  - intros Hall. apply for_keys_convertible; [|done].
    apply Forall_forall. intros k _ v. apply Hall.
Qed.

Lemma for_events_returns_iff (events : list event)
    (result : list (gmap string pyobj)) :
  (∃ recs, for_events events result = Return recs) ↔
  Forall (λ ev, ∀ k v, getitem ev k = Return v → convertible v = true) events.
Proof.
  revert result. induction events as [|ev events IH]; intros result; simpl.
  - split; [constructor | by eexists].
  - rewrite Forall_cons, <- record_of_returns_iff. split.
    + intros [recs (rec & Hrec & H)%bind_Return]. split; [by eexists|].
      eapply IH. by eexists.
    + intros [[rec ->] Hrest]. simpl. by apply IH.
Qed.

(** X3.  With the parser and the expander returning, the call returns a
    list exactly when every value of every occurrence is of a supported
    shape and every date-time among them has its UTC instant inside the
    range of [datetime]; in every other case it raises. *)
Theorem read_calendar_returns_iff (s : bytes) (a b : date) (cal : Calendar)
    (events : list event) :
  from_ical s = Return cal → between cal a b = Return events →
  ((∃ recs, read_calendar s a b = Return recs) ↔
   Forall (λ ev, ∀ k v, getitem ev k = Return v → convertible v = true) events)
  ∧ ((∃ e, read_calendar s a b = Raise e) ↔
     Exists (λ ev, ∃ k v, getitem ev k = Return v ∧ convertible v = false) events).
Proof.
  intros Hcal Hev. rewrite (read_calendar_events _ _ _ _ _ _ _ _ _ Hcal Hev).
  split; [apply for_events_returns_iff|].
  split.
  - intros [e (ev & Hin & H)%for_events_Raise].
    apply record_of_Raise in H as (k & v & Hk & Hv).
    apply Exists_exists. exists ev. split; [done|]. exists k, v. split; [done|].
    destruct (convertible v) eqn:Hc; [|done].
    assert (convert k v = Return (Table.converted local_timezone v))
      by (by apply convert_table). congruence.
  - intros (ev & Hin & k & v & Hk & Hv)%Exists_exists.
    destruct (for_events events []) as [recs|e] eqn:H; [|by eexists].
    assert (∃ recs, for_events events [] = Return recs) as Hret by eauto.
    apply for_events_returns_iff in Hret.
    eapply Forall_forall in Hret; [|exact Hin].
    specialize (Hret k v Hk). congruence.
Qed.

(** X4.  The exception of the call is that of the first value that does
    not convert, occurrences taken in the order received and keys in the
    order of [keys()]: whatever follows it is not looked at. *)
Theorem read_calendar_first_failure (s : bytes) (a b : date) (cal : Calendar)
    (before after : list event) (ev : event) (ks1 ks2 : list string)
    (k : string) (v : pyobj) (e : exn) :
  from_ical s = Return cal →
  between cal a b = Return (before ++ ev :: after) →
  Forall (λ ev', ∀ k' v', getitem ev' k' = Return v' → convertible v' = true)
    before →
  keys ev = ks1 ++ k :: ks2 →
  Forall (λ k', ∀ v', getitem ev k' = Return v' → convertible v' = true) ks1 →
  getitem ev k = Return v →
  convert k v = Raise e →
  read_calendar s a b = Raise e.
Proof.
  intros Hcal Hev Hbefore Hkeys Hks1 Hk Hv.
  rewrite (read_calendar_events _ _ _ _ _ _ _ _ _ Hcal Hev).
  rewrite for_events_app.
  apply (for_events_returns_iff before []) in Hbefore as [recs ->]. simpl.
  assert (record_of ev = Raise e) as ->; [|done].
  unfold Tokio.record_of. rewrite Hkeys, for_keys_app.
  destruct (for_keys_convertible ev ks1 ∅ Hks1) as [rec ->].
  { rewrite Hkeys. set_solver. }
  simpl. rewrite Hk. simpl. by rewrite Hv.
Qed.

End LoopsAgain.

(** ** The zone of the machine *)

Section MachineZone.

Import Table.

Variable local1 local2 : tzinfo.





End MachineZone.

(** ** A machine that keeps one offset *)

Section ConstantOffset.

Variable local_timezone : tzinfo.
Variable c : Z.
Hypothesis constant : ∀ x, utcoffset local_timezone x = c * SECOND.

Lemma representable_seconds (w k : Z) :
  representable ((w / SECOND + k) * SECOND) = representable (w + k * SECOND).
Proof.
  unfold representable, SECOND, DAY, MINORDINAL, MAXORDINAL.
  pose proof (Z.div_mod w 1000000 ltac:(lia)).
  pose proof (Z.mod_pos_bound w 1000000 ltac:(lia)).
  apply eq_true_iff_eq. rewrite !andb_true_iff, !Z.leb_le, !Z.ltb_lt. lia.
Qed.

Lemma gmtoff_constant (u : Z) : gmtoff local_timezone u = c.
Proof. unfold gmtoff. rewrite constant. by apply Z.div_mul. Qed.

Lemma local_reading_constant (u : Z) :
  local_reading local_timezone u
  = if representable ((u + c) * SECOND) then Return (u + c)
    else Raise ValueError.
Proof. unfold local_reading. by rewrite gmtoff_constant. Qed.

(** The search succeeds, with the one offset, when the three readings it
    takes have a year: the wall clock on the UTC clock, the wall clock
    itself, and the wall clock one day earlier. *)
Lemma local_to_seconds_constant (t : Z) :
  local_to_seconds local_timezone t
  = if representable ((t + c) * SECOND) && representable (t * SECOND)
       && representable ((t - max_fold_seconds) * SECOND)
    then Return (t - c) else Raise ValueError.
Proof.
  unfold local_to_seconds. rewrite local_reading_constant.
  destruct (representable ((t + c) * SECOND)); [|done]. cbn -[Z.mul Z.add Z.sub].
  replace (t + c - t) with c by lia.
  rewrite (local_reading_constant (t - c)).
  replace (t - c + c) with t by lia.
  destruct (representable (t * SECOND)); [|done]. cbn -[Z.mul Z.add Z.sub].
  rewrite Z.eqb_refl.
  rewrite (local_reading_constant (t - c - max_fold_seconds)).
  replace (t - c - max_fold_seconds + c) with (t - max_fold_seconds) by lia.
  destruct (representable ((t - max_fold_seconds) * SECOND)); [|done].
  cbn -[Z.mul Z.add Z.sub].
  replace (t - max_fold_seconds - (t - c - max_fold_seconds)) with c by lia.
  by rewrite Z.eqb_refl.
Qed.

(** What becomes of a naive date-time on such a machine. *)
Lemma astimezone_naive_constant (d : datetime) :
  tzinfo_of d = None →
  datetime_astimezone_utc local_timezone d
  = if representable (wall d + c * SECOND) && representable (wall d)
       && representable (wall d - DAY)
    then if representable (wall d - c * SECOND)
         then Return (mkdatetime (wall d - c * SECOND) (Some timezone_utc))
         else Raise OverflowError
    else Raise ValueError.
Proof.
  intros Hd. unfold datetime_astimezone_utc, local_utcoffset. rewrite Hd.
  rewrite local_to_seconds_constant.
  rewrite (representable_seconds (wall d) c).
  replace (wall d / SECOND * SECOND) with ((wall d / SECOND + 0) * SECOND)
    by lia.
  rewrite (representable_seconds (wall d) 0).
  replace (wall d / SECOND - max_fold_seconds)
    with (wall d / SECOND + - max_fold_seconds) by lia.
  rewrite (representable_seconds (wall d) (- max_fold_seconds)).
  replace (wall d + 0 * SECOND) with (wall d) by lia.
  replace (wall d + - max_fold_seconds * SECOND) with (wall d - DAY)
    by (unfold max_fold_seconds, DAY, SECOND; lia).
  destruct (_ && _ && _); [|done]. simpl.
  by rewrite gmtoff_constant.
Qed.

End ConstantOffset.

Section TwoMachines.

Variable local1 local2 : tzinfo.

(** X7.  A naive date-time is read on the clock of the machine.  On a
    machine that keeps one offset it is stored as its wall clock less that
    offset, provided it lies more than a day after [datetime.min] and the
    offset leaves it inside the range of [datetime] both ways; a machine
    that keeps another offset does not get the same result. *)
Theorem naive_datetime_follows_machine (c1 c2 : Z) (i : string) (d : datetime) :
  (∀ x, utcoffset local1 x = c1 * SECOND) →
  (∀ x, utcoffset local2 x = c2 * SECOND) →
  tzinfo_of d = None →
  representable (wall d) = true →
  representable (wall d - DAY) = true →
  representable (wall d + c1 * SECOND) = true →
  representable (wall d - c1 * SECOND) = true →
  Tokio.convert local1 i (vDDDTypes (Datetime d))
  = Return (Datetime (mkdatetime (wall d - c1 * SECOND) (Some timezone_utc)))
  ∧ (c1 ≠ c2 →
     Tokio.convert local1 i (vDDDTypes (Datetime d))
     ≠ Tokio.convert local2 i (vDDDTypes (Datetime d))).
Proof.
  intros H1 H2 Hd Hw Hday Hplus Hminus. rewrite !convert_cases.
  rewrite (astimezone_naive_constant local1 c1 H1 d Hd).
  rewrite (astimezone_naive_constant local2 c2 H2 d Hd).
  rewrite Hw, Hday, Hplus, Hminus. simpl. split; [done|]. intros Hne.
  destruct (_ && _ && _); simpl; [|done].
  destruct (representable (wall d - c2 * SECOND)); simpl; [|done].
  intros [= H]. unfold SECOND in H. lia.
Qed.

(** X11.  On a machine that keeps one offset, whatever it is, a naive
    date-time on the first day of the calendar cannot be brought to UTC:
    the conversion raises [ValueError]. *)
Theorem naive_datetime_first_day (c1 : Z) (i : string) (d : datetime) :
  (∀ x, utcoffset local1 x = c1 * SECOND) →
  tzinfo_of d = None →
  representable (wall d - DAY) = false →
  Tokio.convert local1 i (vDDDTypes (Datetime d)) = Raise ValueError.
Proof.
  intros H1 Hd Hday. rewrite convert_cases.
  rewrite (astimezone_naive_constant local1 c1 H1 d Hd), Hday.
  by rewrite andb_false_r.
Qed.

End TwoMachines.


(** ** The scripts and the fetch *)

Section Scripts.

Variable local_timezone : tzinfo.
Variable Calendar : Type.
Variable urlopen_read : string → py bytes.
Variable from_ical : bytes → py Calendar.
Variable between : Calendar → date → date → py (list event).

(** The function of robotica-backend is the fetch followed by the function
    of robotica-tokio, whatever the fetch does. *)
Lemma backend_read_calendar_fetch (url : string) (a b : date) :
  Backend.read_calendar local_timezone Calendar urlopen_read from_ical between
    url a b
  = urlopen_read url
    ≫= λ s, Tokio.read_calendar local_timezone Calendar from_ical between s a b.
Proof.
  unfold Backend.read_calendar, Tokio.read_calendar.
  destruct (urlopen_read url) as [s|]; [|done]. simpl.
  destruct (from_ical s) as [cal|]; [|done]. simpl.
  destruct (between cal a b) as [events|]; [|done]. simpl.
  apply backend_for_events.
Qed.

(** X9.  Run as programs on the same machine and network, the two scripts
    print the same list or stop on the same exception. *)
Theorem scripts_agree :
  Tokio.main local_timezone Calendar urlopen_read from_ical between
  = Backend.main local_timezone Calendar urlopen_read from_ical between.
Proof.
  unfold Tokio.main, Backend.main. by rewrite backend_read_calendar_fetch.
Qed.

(** X10.  The function of robotica-backend fails exactly when the fetch
    fails, with the exception of the fetch and without parsing anything, or
    when the function of robotica-tokio fails on the fetched text, with the
    exception of that function. *)
Theorem backend_read_calendar_Raise (url : string) (a b : date) (e : exn) :
  Backend.read_calendar local_timezone Calendar urlopen_read from_ical between
    url a b = Raise e ↔
  urlopen_read url = Raise e
  ∨ ∃ s, urlopen_read url = Return s
         ∧ Tokio.read_calendar local_timezone Calendar from_ical between s a b
           = Raise e.
Proof.
  rewrite backend_read_calendar_fetch. split.
  - intros [?|?]%bind_Raise; auto.
  - intros [->|(s & -> & H)]; [done | exact H].
Qed.

End Scripts.

(** ** The exceptions of the function itself *)

Section OwnExceptions.

Import Canonical.

Variable local_timezone : tzinfo.
Variable Calendar : Type.
Variable from_ical : bytes → py Calendar.
Variable between : Calendar → date → date → py (list event).


End OwnExceptions.

(** ** More samples *)

Section MoreSamples.

Import Canonical Table Sample.

Abbreviation march_5 := (date_of 2019 3 5).
Abbreviation april_1 := (date_of 2019 4 1).
Abbreviation nap_calendar :=
  (Tokio.read_calendar AEST unit any_from_ical (any_between [nap_event])).

Ltac by_keys :=
  intros ? ?; simpl; repeat case_decide;
  let Hv := fresh "Hv" in
  intros Hv; first [discriminate Hv | injection Hv as <-; reflexivity].

Lemma nap_convertible :
  ∀ k v, getitem nap_event k = Return v → Table.convertible AEST v = true.
Proof. by_keys. Qed.


(** X1 on the nap. *)
Lemma read_calendar_scalar_unchanged_nap :
  nap_calendar [] march_5 april_1 = Return [nap_record]
  ∧ (∃ cal events,
       any_from_ical [] = Return cal
       ∧ any_between [nap_event] cal march_5 april_1 = Return events
       ∧ Forall2 (λ ev (rec : gmap string pyobj),
                    ∀ k v, getitem ev k = Return v →
                      isinstance v vDDDTypes_t = false → rec !! k = Some v)
           events [nap_record])
  ∧ (∀ i v, isinstance v vDDDTypes_t = false → supported v = true →
       Tokio.convert AEST i v = Return v).
Proof.
  split; [vm_compute; reflexivity|].
  apply (read_calendar_scalar_unchanged AEST unit any_from_ical
           (any_between [nap_event]) [] march_5 april_1 [nap_record]).
  vm_compute; reflexivity.
Defined.

(** X2 on the nap. *)
Lemma read_calendar_duration_unwrapped_nap :
  nap_calendar [] march_5 april_1 = Return [nap_record]
  ∧ (∃ cal events,
       any_from_ical [] = Return cal
       ∧ any_between [nap_event] cal march_5 april_1 = Return events
       ∧ Forall2 (λ ev (rec : gmap string pyobj),
                    ∀ k t, getitem ev k = Return (vDDDTypes (Timedelta t)) →
                      rec !! k = Some (Timedelta t))
           events [nap_record])
  ∧ (∀ i t, Tokio.convert AEST i (vDDDTypes (Timedelta t)) = Return (Timedelta t)).
Proof.
  split; [vm_compute; reflexivity|].
  apply (read_calendar_duration_unwrapped AEST unit any_from_ical
           (any_between [nap_event]) [] march_5 april_1 [nap_record]).
  vm_compute; reflexivity.
Defined.

(** X3 on the nap followed by the occurrence at the edge of the
    calendar. *)
Lemma read_calendar_returns_iff_edge :
  any_from_ical [] = Return ()
  ∧ any_between [nap_event; edge_event] () march_5 april_1
    = Return [nap_event; edge_event]
  ∧ ((∃ recs, Tokio.read_calendar AEST unit any_from_ical
                (any_between [nap_event; edge_event]) [] march_5 april_1
              = Return recs) ↔
     Forall (λ ev, ∀ k v, getitem ev k = Return v →
                     Table.convertible AEST v = true)
       [nap_event; edge_event])
  ∧ ((∃ e, Tokio.read_calendar AEST unit any_from_ical
             (any_between [nap_event; edge_event]) [] march_5 april_1
           = Raise e) ↔
     Exists (λ ev, ∃ k v, getitem ev k = Return v
                          ∧ Table.convertible AEST v = false)
       [nap_event; edge_event]).
Proof.
  split; [reflexivity|]. split; [reflexivity|].
  apply (read_calendar_returns_iff AEST unit any_from_ical
           (any_between [nap_event; edge_event]) [] march_5 april_1 ()
           [nap_event; edge_event]); reflexivity.
Defined.

(** X4 on the same list: the date-time out of range comes first and is
    the one reported, not the list of attendees after it. *)
Lemma read_calendar_first_failure_edge :
  any_from_ical [] = Return ()
  ∧ any_between [nap_event; edge_event] () march_5 april_1
    = Return ([nap_event] ++ edge_event :: [])
  ∧ Forall (λ ev', ∀ k' v', getitem ev' k' = Return v' →
                     Table.convertible AEST v' = true) [nap_event]
  ∧ keys edge_event = [] ++ "DTSTART" :: ["ATTENDEE"]
  ∧ Forall (λ k', ∀ v', getitem edge_event k' = Return v' →
                    Table.convertible AEST v' = true) []
  ∧ getitem edge_event "DTSTART"
    = Return (vDDDTypes (Datetime (datetime_of 1 1 1 1 0 0 (Some AEDT))))
  ∧ Tokio.convert AEST "DTSTART"
      (vDDDTypes (Datetime (datetime_of 1 1 1 1 0 0 (Some AEDT))))
    = Raise OverflowError
  ∧ Tokio.read_calendar AEST unit any_from_ical
      (any_between [nap_event; edge_event]) [] march_5 april_1
    = Raise OverflowError.
Proof.
  split; [reflexivity|]. split; [reflexivity|].
  split; [repeat constructor; exact nap_convertible|].
  split; [reflexivity|]. split; [constructor|].
  split; [reflexivity|]. split; [reflexivity|].
  apply (read_calendar_first_failure AEST unit any_from_ical
           (any_between [nap_event; edge_event]) [] march_5 april_1 ()
           [nap_event] [] edge_event [] ["ATTENDEE"] "DTSTART"
           (vDDDTypes (Datetime (datetime_of 1 1 1 1 0 0 (Some AEDT))))
           OverflowError);
    try reflexivity.
  - repeat constructor. exact nap_convertible.
  - constructor.
Defined.

(** X5 on the meeting. *)
Lemma convert_datetime_idempotent_meeting :
  Tokio.convert AEST "DTSTART"
    (vDDDTypes (Datetime (datetime_of 2019 3 10 10 0 0 (Some AEDT))))
  = Return (Datetime (datetime_of 2019 3 9 23 0 0 (Some timezone_utc)))
  ∧ Tokio.convert AEST "DTEND"
      (vDDDTypes (Datetime (datetime_of 2019 3 9 23 0 0 (Some timezone_utc))))
    = Return (Datetime (datetime_of 2019 3 9 23 0 0 (Some timezone_utc))).
Proof.
  split; [reflexivity|].
  apply (convert_datetime_idempotent AEST "DTSTART" "DTEND"
           (datetime_of 2019 3 10 10 0 0 (Some AEDT))).
  reflexivity.
Defined.


(** The search for the zone of the machine on the clock of Melbourne, as
    CPython 3.11 answers there: 02:30 on 2019-10-06 falls in the gap of the
    change to daylight time, 02:30 on 2019-04-07 is shown twice and the
    first showing is taken. *)
Example melbourne_gap :
  datetime_astimezone_utc Melbourne (datetime_of 2019 10 6 2 30 0 None)
  = Return (datetime_of 2019 10 5 15 30 0 (Some timezone_utc)).
Proof. reflexivity. Qed.

Example melbourne_fold :
  datetime_astimezone_utc Melbourne (datetime_of 2019 4 7 2 30 0 None)
  = Return (datetime_of 2019 4 6 15 30 0 (Some timezone_utc)).
Proof. reflexivity. Qed.

(** The last day of the calendar: ten hours east of UTC the clock of the
    machine would show the year 10000, ten hours west the result would
    fall in it. *)
Example last_day_east :
  datetime_astimezone_utc AEST (datetime_of 9999 12 31 14 30 0 None)
  = Raise ValueError.
Proof. reflexivity. Qed.

Example last_day_west :
  datetime_astimezone_utc (timezone_hours "UTC-10" (-10))
    (datetime_of 9999 12 31 14 30 0 None)
  = Raise OverflowError.
Proof. reflexivity. Qed.

Example second_day_east :
  datetime_astimezone_utc AEST (datetime_of 1 1 2 0 0 0 None)
  = Return (datetime_of 1 1 1 14 0 0 (Some timezone_utc)).
Proof. reflexivity. Qed.

(** X7 on a floating 10:00, on a machine set to AEST and on one set to
    AEDT. *)
Lemma naive_datetime_follows_machine_floating :
  (∀ x, utcoffset AEST x = 36000 * SECOND)
  ∧ (∀ x, utcoffset AEDT x = 39600 * SECOND)
  ∧ tzinfo_of floating = None
  ∧ representable (wall floating) = true
  ∧ representable (wall floating - DAY) = true
  ∧ representable (wall floating + 36000 * SECOND) = true
  ∧ representable (wall floating - 36000 * SECOND) = true
  ∧ Tokio.convert AEST "DTSTART" (vDDDTypes (Datetime floating))
    = Return (Datetime (mkdatetime (wall floating - 36000 * SECOND)
                          (Some timezone_utc)))
  ∧ (36000 ≠ 39600 →
     Tokio.convert AEST "DTSTART" (vDDDTypes (Datetime floating))
     ≠ Tokio.convert AEDT "DTSTART" (vDDDTypes (Datetime floating))).
Proof.
  split; [intros x; reflexivity|]. split; [intros x; reflexivity|].
  split; [reflexivity|]. split; [reflexivity|]. split; [reflexivity|].
  split; [reflexivity|]. split; [reflexivity|].
  apply (naive_datetime_follows_machine AEST AEDT 36000 39600 "DTSTART"
           floating);
    first [reflexivity | intros x; reflexivity].
Defined.

(** X11 on noon of 0001-01-01, on a machine set to AEST. *)
Lemma naive_datetime_first_day_noon :
  (∀ x, utcoffset AEST x = 36000 * SECOND)
  ∧ tzinfo_of first_noon = None
  ∧ representable (wall first_noon - DAY) = false
  ∧ Tokio.convert AEST "DTSTART" (vDDDTypes (Datetime first_noon))
    = Raise ValueError.
Proof.
  split; [intros x; reflexivity|]. split; [reflexivity|].
  split; [reflexivity|].
  apply (naive_datetime_first_day AEST 36000 "DTSTART" first_noon);
    first [reflexivity | intros x; reflexivity].
Defined.


(** C5 on the meeting, read from 2019-04-01 back to 2019-03-05. *)
Lemma inverted_window_fails_meeting :
  from_ical meeting_ics = Return meeting_doc
  ∧ toordinal march_5 < toordinal april_1
  ∧ read_calendar meeting_ics april_1 march_5 = Raise InvalidWindowError
  ∧ ∀ recs, read_calendar meeting_ics april_1 march_5 ≠ Return recs.
Proof.
  split; [vm_compute; reflexivity|]. split; [reflexivity|].
  apply (inverted_window_fails AEST from_ical meeting_ics april_1 march_5
           meeting_doc); [vm_compute; reflexivity | reflexivity].
Defined.

End MoreSamples.
